(** * Ledger transaction preparation (src/ledger/transaction.ts)

    A shallow embedding of the four exported functions of
    [src/ledger/transaction.ts]:

    - [getTransactionData]: the select / reconcile / re-validate protocol;
    - [createNativeSegwitPsbt], [createTaprootPsbt], [createMixedPsbt]:
      the three assemblers of the unsigned container;
    - [addSignatureToStxTransaction]: the signature patcher.

    Amounts ([BigNumber] satoshis, the [value] of a UTXO) are integers and
    are modelled in [Z].  The functions imported from other modules
    ([selectUnspentOutputs], [getFee], [fetchBtcFeeRate], the Esplora
    provider, ...) are the fields of an environment record [Env]; every
    call that goes to the network is recorded in a trace of [Event]s, so
    that the number of invocations of a collaborator can be counted.

    The container of bitcoinjs-lib keeps inputs and outputs in the order
    they were added, and throws when it refuses one.  What it refuses is
    a parameter ([PsbtLib]), but for the range of an output value, which
    is fixed ([isSatoshi]).  The properties of the assemblers are
    therefore properties of the container they return, when they return
    one. *)

From Stdlib Require Import ZArith List String Ascii Bool Lia.
From Stdlib Require Strings.Byte.
From Stdlib Require Import Floats.SpecFloat.
From stdpp Require Import gmap strings list fin_maps.

#[local] Set Warnings "-clear-no-such-hyp".

Local Open Scope string_scope.
Local Open Scope list_scope.
Local Open Scope Z_scope.

(* ===================================================================== *)
(** ** Buffers and their hexadecimal form *)
(* ===================================================================== *)

Module Buffer.

(** A Node [Buffer]: a sequence of bytes. *)
Definition t : Type := list Byte.byte.

Definition hexDigit (n : N) : ascii :=
  match n with
  | 0%N => "0" | 1%N => "1" | 2%N => "2" | 3%N => "3"
  | 4%N => "4" | 5%N => "5" | 6%N => "6" | 7%N => "7"
  | 8%N => "8" | 9%N => "9" | 10%N => "a" | 11%N => "b"
  | 12%N => "c" | 13%N => "d" | 14%N => "e" | _ => "f"
  end%char.

(** Value of a hexadecimal digit, in either case. *)
Definition hexValue (c : ascii) : option N :=
  let n := N_of_ascii c in
  if ((48 <=? n) && (n <=? 57))%N then Some (n - 48)%N
  else if ((97 <=? n) && (n <=? 102))%N then Some (n - 87)%N
  else if ((65 <=? n) && (n <=? 70))%N then Some (n - 55)%N
  else None.

(** [buf.toString('hex')]: two lower-case digits per byte. *)
Fixpoint toString_hex (b : t) : string :=
  match b with
  | [] => EmptyString
  | x :: rest =>
      let n := Byte.to_N x in
      String (hexDigit (n / 16)) (String (hexDigit (n mod 16)) (toString_hex rest))
  end.

(** [Buffer.from(s, 'hex')]: decodes pairs of digits and stops at the
    first pair that is not hexadecimal; a trailing single digit is
    dropped. *)
Fixpoint from_hex (s : string) : t :=
  match s with
  | String c1 (String c2 rest) =>
      match hexValue c1, hexValue c2 with
      | Some h, Some l =>
          match Byte.of_N (h * 16 + l) with
          | Some x => x :: from_hex rest
          | None => []
          end
      | _, _ => []
      end
  | _ => []
  end.

End Buffer.

(* ===================================================================== *)
(** ** [BigNumber.prototype.toNumber] on integers *)
(* ===================================================================== *)

Module JsNumber.

(** The JavaScript numbers an integer [BigNumber] converts to: an
    integer-valued binary64, or an infinity. *)
Inductive t : Type :=
| Finite (z : Z)
| PosInfinity
| NegInfinity.

(** Round a non-negative integer to 53 significant bits, to nearest,
    ties to even. *)
Definition round53 (a : Z) : Z :=
  let e := Z.max 0 (Z.log2 a - 52) in
  let q := Z.shiftr a e in
  let r := a - Z.shiftl q e in
  let up := (2 ^ e <? 2 * r) || ((2 * r =? 2 ^ e) && Z.odd q) in
  Z.shiftl (if up then q + 1 else q) e.

(** [x.toNumber()] for an integer [x]: the nearest binary64, an
    infinity from [2^1024] on. *)
Definition toNumber (x : Z) : t :=
  let m := round53 (Z.abs x) in
  if 2 ^ 1024 <=? m then (if x <? 0 then NegInfinity else PosInfinity)
  else Finite (Z.sgn x * m).

(** [n > 0] on a JavaScript number. *)
Definition gt0 (n : t) : bool :=
  match n with
  | Finite z => 0 <? z
  | PosInfinity => true
  | NegInfinity => false
  end.

(** The binary64 the Standard Library's IEEE-754 specification assigns
    to an integer, read back as a [t] (used to check [toNumber]). *)
Definition of_spec_float (f : spec_float) : option t :=
  match f with
  | S754_zero _ => Some (Finite 0)
  | S754_infinity s => Some (if s then NegInfinity else PosInfinity)
  | S754_nan => None
  | S754_finite s m e =>
      let v := if 0 <=? e then Z.pos m * 2 ^ e else Z.pos m / 2 ^ (- e) in
      Some (Finite (if s then - v else v))
  end.

Definition binary64_of_Z (x : Z) : spec_float :=
  binary_normalize 53 1024 x 0 false.

End JsNumber.

(* ===================================================================== *)
(** ** Data model *)
(* ===================================================================== *)

(** [NetworkType]: ['Mainnet' | 'Testnet']. *)
Inductive NetworkType : Type := Mainnet | Testnet.

(** [UTXO]: identified by [(txid, vout)]; [value] in satoshis. *)
Record UTXO : Type := mkUTXO {
  txid : string;
  vout : Z;
  value : Z;
  address : string
}.

(** [Recipient]: an address and a [BigNumber] amount of satoshis. *)
Record Recipient : Type := mkRecipient {
  r_address : string;
  amountSats : Z
}.

(** Modelled from the spec: [BtcFeeResponse], declared in [../types]; the
    fetched tiered estimate {slow, regular, fast}.  Only [regular] is read. *)
Record BtcFeeResponse (R : Type) : Type := mkBtcFeeResponse {
  slow : R;
  regular : R;
  fast : R
}.
Arguments mkBtcFeeResponse {R} _ _ _.
Arguments slow {R} _.
Arguments regular {R} _.
Arguments fast {R} _.

(** Modelled from the spec: [ErrorCodes] and [ResponseError], declared in
    [../types]: a typed error that carries a stable error code.  The one
    code this file refers to is [InSufficientBalanceWithTxFee]. *)
Inductive ErrorCodes : Type := InSufficientBalanceWithTxFee.

Record ResponseError : Type := new_ResponseError {
  statusCode : ErrorCodes
}.

(** What a rejected promise carries.  JavaScript throws any value: a
    status code thrown as a literal, an error object, or whatever a
    collaborator rejects with. *)
Inductive Thrown : Type :=
| ThrownStatusCode (c : ErrorCodes)
| ThrownResponseError (e : ResponseError)
| ThrownOther (msg : string).

Inductive result (A : Type) : Type :=
| Ok (a : A)
| Throw (e : Thrown).
Arguments Ok {A} _.
Arguments Throw {A} _.

(** Sequencing of synchronous code that may throw. *)
Definition andThen {A B} (r : result A) (k : A -> result B) : result B :=
  match r with
  | Ok a => k a
  | Throw e => Throw e
  end.

(* ===================================================================== *)
(** ** Collaborators and effects *)
(* ===================================================================== *)

(** One event per call that leaves the process. *)
Inductive Event : Type :=
| EvGetUnspentUtxos (addr : string)
| EvGetOrdinalsUtxos (network : NetworkType) (addr : string)
| EvFetchBtcFeeRate (network : NetworkType)
| EvGetFee
| EvGetTransactionHex (id : string).

(** The imported functions.  [Rate] is the JavaScript number type of a
    fee rate (sats/vB, possibly fractional); [Number] is the conversion
    of the caller's fee-rate string. *)
Record Env : Type := mkEnv {
  Rate : Type;
  Number : string -> Rate;
  defaultFeeRate : BtcFeeResponse Rate;
  (* esploraProvider.getUnspentUtxos(address) *)
  getUnspentUtxos : string -> result (list UTXO);
  (* getOrdinalsUtxos(esploraProvider, network, address) *)
  getOrdinalsUtxos : NetworkType -> string -> result (list UTXO);
  (* filterUtxos(unspentOutputs, addressOrdinalsUtxos) *)
  filterUtxos : list UTXO -> list UTXO -> list UTXO;
  (* selectUnspentOutputs(amountSats, feeRate, unspentOutputs, pinnedOutput) *)
  selectUnspentOutputs : Z -> Rate -> list UTXO -> option UTXO -> list UTXO;
  (* fetchBtcFeeRate(network) *)
  fetchBtcFeeRate : NetworkType -> result (BtcFeeResponse Rate);
  (* getFee(unspentOutputs, selectedUnspentOutputs, sumOfSelectedUTXOs,
            satsToSend, recipients, feeRate, changeAddress, network,
            pinnedOutput) *)
  getFee : list UTXO -> list UTXO -> Z -> Z -> list Recipient ->
           string + BtcFeeResponse Rate -> string -> NetworkType ->
           option UTXO -> result (list UTXO * Z);
  (* esploraProvider.getTransactionHex(txid) *)
  getTransactionHex : string -> result string
}.

(** Computations that may reject and that log their calls. *)
Definition M (A : Type) : Type := list Event -> result A * list Event.

Definition ret {A} (a : A) : M A := fun tr => (Ok a, tr).

Definition bind {A B} (m : M A) (k : A -> M B) : M B :=
  fun tr =>
    match m tr with
    | (Ok a, tr') => k a tr'
    | (Throw e, tr') => (Throw e, tr')
    end.

Definition throw {A} (e : Thrown) : M A := fun tr => (Throw e, tr).

(** A call to a collaborator: the call is logged, then it settles. *)
Definition call {A} (ev : Event) (r : result A) : M A :=
  fun tr => (r, tr ++ [ev]).

(** [await Promise.all([p1, p2])]: both calls have been made when the
    join is awaited; the join rejects when either does. *)
Definition promise_all2 {A B} (p1 : M A) (p2 : M B) : M (A * B) :=
  fun tr =>
    let '(r1, tr1) := p1 tr in
    let '(r2, tr2) := p2 tr1 in
    (match r1, r2 with
     | Ok a, Ok b => Ok (a, b)
     | Throw e, _ => Throw e
     | _, Throw e => Throw e
     end, tr2).

(** Synchronous code inside an [async] function: no call is logged, and
    what it throws rejects the promise. *)
Definition lift {A} (r : result A) : M A := fun tr => (r, tr).

Definition run {A} (m : M A) : result A * list Event := m [].

Declare Scope m_scope.
Delimit Scope m_scope with M.
Notation "'let*' x ':=' c 'in' k" := (bind c (fun x => k))
  (at level 10, x pattern, c at level 100, k at level 200) : m_scope.

(** Number of fee-rate fetches in a trace. *)
Definition isFeeRateFetch (ev : Event) : bool :=
  match ev with EvFetchBtcFeeRate _ => true | _ => false end.

Definition isTransactionHexFetch (ev : Event) : bool :=
  match ev with EvGetTransactionHex _ => true | _ => false end.

Definition countEvents (p : Event -> bool) (tr : list Event) : nat :=
  length (List.filter p tr).

(* ===================================================================== *)
(** ** [getTransactionData] *)
(* ===================================================================== *)

(** Modelled from the spec: [sumUnspentOutputs], exported by
    [../transactions/btc]: the sum of the values of a list of outputs
    ([sumValues] of the spec's interface list). *)
Definition sumUnspentOutputs (utxos : list UTXO) : Z :=
  fold_left (fun acc u => acc + value u) utxos 0.

(** The object returned by [getTransactionData]. *)
Record TransactionData : Type := mkTransactionData {
  selectedUTXOs : list UTXO;
  changeValue : Z;
  fee : Z;
  ordinalUtxoInPaymentAddress : bool
}.

(** Truthiness of an optional string: [undefined] and [""] are falsy. *)
Definition truthy (s : option string) : option string :=
  match s with
  | Some EmptyString => None
  | other => other
  end.

(** The value thrown at both insufficiency checkpoints:
    [new ResponseError(ErrorCodes.InSufficientBalanceWithTxFee).statusCode]. *)
Definition insufficientFunds : Thrown :=
  ThrownStatusCode (statusCode (new_ResponseError InSufficientBalanceWithTxFee)).

Definition getTransactionData (env : Env) (network : NetworkType)
    (senderAddress : string) (recipients : list Recipient)
    (feeRateInput : option string) (ordinalUtxo : option UTXO)
    : M TransactionData :=
  (let* (unspentOutputs, addressOrdinalsUtxos) :=
     promise_all2
       (call (EvGetUnspentUtxos senderAddress)
             (getUnspentUtxos env senderAddress))
       (call (EvGetOrdinalsUtxos network senderAddress)
             (getOrdinalsUtxos env network senderAddress)) in
   let ordinalUtxoInPaymentAddress :=
     match ordinalUtxo with
     | Some o =>
         existsb (fun utxo => String.eqb (txid utxo) (txid o)
                              && (vout utxo =? vout o)) unspentOutputs
     | None => false
     end in
   let filteredUnspentOutputs :=
     filterUtxos env unspentOutputs addressOrdinalsUtxos in
   let feeRate := defaultFeeRate env in
   let amountSats :=
     fold_left (fun acc value => acc + amountSats value) recipients 0 in
   let selectedUTXOs :=
     selectUnspentOutputs env amountSats
       (match truthy feeRateInput with
        | Some s => Number env s
        | None => regular feeRate
        end)
       filteredUnspentOutputs ordinalUtxo in
   let sumOfSelectedUTXOs := sumUnspentOutputs selectedUTXOs in
   if sumOfSelectedUTXOs <? amountSats then throw insufficientFunds
   else
     let* feeRate := call (EvFetchBtcFeeRate network)
                          (fetchBtcFeeRate env network) in
     let* (newSelectedUnspentOutputs, fee) :=
       call EvGetFee
         (getFee env filteredUnspentOutputs selectedUTXOs sumOfSelectedUTXOs
            amountSats recipients
            (match truthy feeRateInput with
             | Some s => inl s
             | None => inr feeRate
             end)
            senderAddress network ordinalUtxo) in
     (* Recalculate the sum of selected UTXOs if new UTXOs were selected *)
     let* (selectedUTXOs, sumOfSelectedUTXOs) :=
       if negb (length newSelectedUnspentOutputs =? length selectedUTXOs)%nat
       then
         let sumOfSelectedUTXOs :=
           sumUnspentOutputs newSelectedUnspentOutputs in
         if sumOfSelectedUTXOs <? amountSats + fee
         then throw insufficientFunds
         else ret (newSelectedUnspentOutputs, sumOfSelectedUTXOs)
       else ret (selectedUTXOs, sumOfSelectedUTXOs) in
     let changeValue := sumOfSelectedUTXOs - amountSats - fee in
     ret (mkTransactionData selectedUTXOs changeValue fee
            ordinalUtxoInPaymentAddress))%M.

(* ===================================================================== *)
(** ** The unsigned container and its three assemblers *)
(* ===================================================================== *)

(** [networks.bitcoin] and [networks.testnet] of bitcoinjs-lib. *)
Inductive BtcNetwork : Type := bitcoin | testnet.

Definition btcNetworkOf (network : NetworkType) : BtcNetwork :=
  match network with Mainnet => bitcoin | Testnet => testnet end.

Record WitnessUtxo : Type := mkWitnessUtxo {
  script : Buffer.t;
  wu_value : Z
}.

(** An output as handed to [addOutput]: the value is the JavaScript
    number [toNumber()] returned. *)
Record PsbtOutput : Type := mkPsbtOutput {
  o_address : string;
  o_value : JsNumber.t
}.

Section Assembler.

(** The derivation records of [./types] are attached verbatim and never
    inspected: they are type parameters. *)
Context {Bip32Derivation TapBip32Derivation : Type}.

(** The object literal passed to [addInput].  A property that is left
    out and a property set to [undefined] are both [None]. *)
Record PsbtInput : Type := mkPsbtInput {
  hash : string;
  index : Z;
  witnessUtxo : WitnessUtxo;
  nonWitnessUtxo : option Buffer.t;
  bip32Derivation : option (list Bip32Derivation);
  tapBip32Derivation : option (list TapBip32Derivation);
  tapInternalKey : option Buffer.t;
  sequence : Z
}.

(** The container, as far as this file relies on it: inputs and outputs
    are kept in the order they were added. *)
Record Psbt : Type := mkPsbt {
  psbt_network : BtcNetwork;
  inputs : list PsbtInput;
  outputs : list PsbtOutput
}.

Definition new_Psbt (net : BtcNetwork) : Psbt := mkPsbt net [] [].

(** bitcoinjs-lib validates what [addInput] and [addOutput] are given and
    throws when it refuses it: a duplicate outpoint, a malformed
    transaction id, a property set to [undefined], an address that does
    not decode for the network, ...  The library is not part of this
    repository: what it refuses beyond the value range below, and what it
    throws then, are the fields of [PsbtLib]; [None] means accepted. *)
Record PsbtLib : Type := mkPsbtLib {
  inputProblem : Psbt -> PsbtInput -> option Thrown;
  outputProblem : Psbt -> PsbtOutput -> option Thrown
}.

(** The [Satoshi] type of bitcoinjs-lib, which every output value is
    checked against: an unsigned integer of at most 53 bits that does not
    exceed [21 * 10^14]. *)
Definition SATOSHI_MAX : Z := 21 * 10 ^ 14.

Definition isSatoshi (n : JsNumber.t) : bool :=
  match n with
  | JsNumber.Finite v => (0 <=? v) && (v <=? SATOSHI_MAX)
  | _ => false
  end.

Definition notSatoshi : Thrown := ThrownOther "Expected Satoshi".

(** [psbt.addInput(i)]: throws, or appends the input. *)
Definition addInput (lib : PsbtLib) (psbt : Psbt) (i : PsbtInput)
    : result Psbt :=
  match inputProblem lib psbt i with
  | Some e => Throw e
  | None => Ok (mkPsbt (psbt_network psbt) (inputs psbt ++ [i]) (outputs psbt))
  end.

(** [psbt.addOutput(o)]: throws, or appends the output.  (Which of two
    failing checks is reported is not relied upon.) *)
Definition addOutput (lib : PsbtLib) (psbt : Psbt) (o : PsbtOutput)
    : result Psbt :=
  match outputProblem lib psbt o with
  | Some e => Throw e
  | None =>
      if isSatoshi (o_value o)
      then Ok (mkPsbt (psbt_network psbt) (inputs psbt) (outputs psbt ++ [o]))
      else Throw notSatoshi
  end.

(** A loop whose body may throw: [for (const a of l) { s = body(s, a) }]. *)
Definition forOf {A S} (l : list A) (body : S -> A -> result S) (s : S)
    : result S :=
  fold_left (fun acc a => andThen acc (fun s => body s a)) l (Ok s).

(** [addOutputs(os)] is [os.forEach(o => this.addOutput(o))]. *)
Definition addOutputs (lib : PsbtLib) (psbt : Psbt) (os : list PsbtOutput)
    : result Psbt :=
  forOf os (addOutput lib) psbt.

(** [await Promise.all(ps)]: every promise of the array has been
    created, hence every call made, before the join is awaited; the join
    rejects when one of them does.  (Which rejection wins depends on
    the order of completion; the model takes the first in array order.) *)
Fixpoint promise_all {A} (ps : list (M A)) : M (list A) :=
  fun tr =>
    match ps with
    | [] => (Ok [], tr)
    | p :: rest =>
        let '(r, tr1) := p tr in
        let '(rs, tr2) := promise_all rest tr1 in
        (match r, rs with
         | Ok a, Ok l => Ok (a :: l)
         | Throw e, _ => Throw e
         | _, Throw e => Throw e
         end, tr2)
    end.

(** The callback mapped over [inputUTXOs]: fetch the parent transaction,
    then store its bytes under the transaction id.  The store is returned
    as a pending write [(txid, bytes)]. *)
Definition fetchParent (env : Env) (utxo : UTXO) : M (string * Buffer.t) :=
  (let* txHex := call (EvGetTransactionHex (txid utxo))
                      (getTransactionHex env (txid utxo)) in
   ret (txid utxo, Buffer.from_hex txHex))%M.

(** [transactionMap] once every callback has run:
    [transactionMap[txid] = bytes] for each write. *)
Definition storeAll (writes : list (string * Buffer.t))
    : gmap string Buffer.t :=
  fold_left (fun m w => <[w.1 := w.2]> m) writes ∅.

Definition fetchTransactionMap (env : Env) (inputUTXOs : list UTXO)
    : M (gmap string Buffer.t) :=
  (let* writes := promise_all (map (fetchParent env) inputUTXOs) in
   ret (storeAll writes))%M.

(** The two input literals. *)
Definition segwitInput (transactionMap : gmap string Buffer.t)
    (inputDerivation : option (list Bip32Derivation))
    (witnessScript : Buffer.t) (utxo : UTXO) : PsbtInput :=
  {| hash := txid utxo;
     index := vout utxo;
     (* both nonWitnessUtxo and witnessUtxo are required or the ledger
        displays warning message *)
     witnessUtxo := {| script := witnessScript; wu_value := value utxo |};
     nonWitnessUtxo := transactionMap !! txid utxo;
     bip32Derivation := inputDerivation;
     tapBip32Derivation := None;
     tapInternalKey := None;
     sequence := 0xfffffffd |}.

Definition taprootInput
    (inputDerivation : option (list TapBip32Derivation))
    (taprootScript : Buffer.t) (internalKey : Buffer.t) (utxo : UTXO)
    : PsbtInput :=
  {| hash := txid utxo;
     index := vout utxo;
     witnessUtxo := {| script := taprootScript; wu_value := value utxo |};
     nonWitnessUtxo := None;
     bip32Derivation := None;
     tapBip32Derivation := inputDerivation;
     tapInternalKey := Some internalKey;
     sequence := 0xfffffffd |}.

(** The tail shared by the three assemblers: one output per recipient,
    then the change output when [changeValue.toNumber() > 0]. *)
Definition addRecipientsAndChange (lib : PsbtLib) (psbt : Psbt)
    (recipients : list Recipient) (changeAddress : string)
    (changeValue : Z) : result Psbt :=
  andThen
    (addOutputs lib psbt
       (map (fun value =>
               {| o_address := r_address value;
                  o_value := JsNumber.toNumber (amountSats value) |})
            recipients))
    (fun psbt =>
       if JsNumber.gt0 (JsNumber.toNumber changeValue)
       then addOutput lib psbt {| o_address := changeAddress;
                                  o_value := JsNumber.toNumber changeValue |}
       else Ok psbt).

Definition createNativeSegwitPsbt (lib : PsbtLib) (env : Env)
    (network : NetworkType)
    (recipients : list Recipient) (changeAddress : string)
    (changeValue : Z) (inputUTXOs : list UTXO)
    (inputDerivation : option (list Bip32Derivation))
    (witnessScript : Buffer.t) : M Psbt :=
  (let btcNetwork := btcNetworkOf network in
   let psbt := new_Psbt btcNetwork in
   let* transactionMap := fetchTransactionMap env inputUTXOs in
   lift
     (andThen
        (forOf inputUTXOs
           (fun psbt utxo =>
              addInput lib psbt
                (segwitInput transactionMap inputDerivation witnessScript
                   utxo))
           psbt)
        (fun psbt =>
           addRecipientsAndChange lib psbt recipients changeAddress
             changeValue)))%M.

Definition createTaprootPsbt (lib : PsbtLib) (network : NetworkType)
    (recipients : list Recipient) (changeAddress : string)
    (changeValue : Z) (inputUTXOs : list UTXO)
    (inputDerivation : option (list TapBip32Derivation))
    (taprootScript : Buffer.t) (internalKey : Buffer.t) : M Psbt :=
  let btcNetwork := btcNetworkOf network in
  let psbt := new_Psbt btcNetwork in
  lift
    (andThen
       (forOf inputUTXOs
          (fun psbt utxo =>
             addInput lib psbt
               (taprootInput inputDerivation taprootScript internalKey utxo))
          psbt)
       (fun psbt =>
          addRecipientsAndChange lib psbt recipients changeAddress
            changeValue)).

Definition createMixedPsbt (lib : PsbtLib) (env : Env)
    (network : NetworkType)
    (recipients : list Recipient) (changeAddress : string)
    (changeValue : Z) (inputUTXOs : list UTXO)
    (inputDerivation : option (list Bip32Derivation))
    (witnessScript : Buffer.t)
    (taprootInputDerivation : option (list TapBip32Derivation))
    (taprootScript : Buffer.t) (internalKey : Buffer.t) : M Psbt :=
  (let btcNetwork := btcNetworkOf network in
   let psbt := new_Psbt btcNetwork in
   let* transactionMap := fetchTransactionMap env inputUTXOs in
   lift
     (andThen
        (forOf inputUTXOs
           (fun psbt utxo =>
              if String.eqb (address utxo) changeAddress
              then
                (* Adding Segwit input *)
                addInput lib psbt
                  (segwitInput transactionMap inputDerivation witnessScript
                     utxo)
              else
                (* Adding Taproot input *)
                addInput lib psbt
                  (taprootInput taprootInputDerivation taprootScript
                     internalKey utxo))
           psbt)
        (fun psbt =>
           addRecipientsAndChange lib psbt recipients changeAddress
             changeValue)))%M.

End Assembler.

Arguments PsbtInput : clear implicits.
Arguments Psbt : clear implicits.
Arguments PsbtLib : clear implicits.

(* ===================================================================== *)
(** ** [addSignatureToStxTransaction] *)
(* ===================================================================== *)

(** What this file uses of [@stacks/transactions]: the two imported
    functions, and the shape of a deserialized transaction down to the
    signature slot.  Everything else the objects hold is kept in the
    [...Fields] components. *)
Record StacksLib : Type := mkStacksLib {
  MessageSignature : Type;
  ConditionFields : Type;
  AuthFields : Type;
  TxFields : Type
}.

Section Stacks.

Context {lib : StacksLib}.

(** [signature] is [None] while the object has no such property (a
    condition that is not single-signature). *)
Record SpendingCondition : Type := mkSpendingCondition {
  signature : option (MessageSignature lib);
  conditionFields : ConditionFields lib
}.

Record Authorization : Type := mkAuthorization {
  spendingCondition : SpendingCondition;
  authFields : AuthFields lib
}.

Record StacksTransaction : Type := mkStacksTransaction {
  auth : Authorization;
  txFields : TxFields lib
}.

Record StacksFunctions : Type := mkStacksFunctions {
  (* deserializeTransaction(tx: string | Buffer) *)
  deserializeTransaction : string + Buffer.t -> result StacksTransaction;
  (* createMessageSignature(signature: string) *)
  createMessageSignature : string -> result (MessageSignature lib)
}.

Definition addSignatureToStxTransaction (fns : StacksFunctions)
    (transaction : string + Buffer.t) (signatureVRS : Buffer.t)
    : result StacksTransaction :=
  match deserializeTransaction fns transaction with
  | Throw e => Throw e
  | Ok deserializedTx =>
      match createMessageSignature fns (Buffer.toString_hex signatureVRS) with
      | Throw e => Throw e
      | Ok spendingCondition' =>
          let a := auth deserializedTx in
          let sc := spendingCondition a in
          Ok {| auth :=
                  {| spendingCondition :=
                       {| signature := Some spendingCondition';
                          conditionFields := conditionFields sc |};
                     authFields := authFields a |};
                txFields := txFields deserializedTx |}
      end
  end.

End Stacks.

Arguments SpendingCondition : clear implicits.
Arguments Authorization : clear implicits.
Arguments StacksTransaction : clear implicits.
Arguments StacksFunctions : clear implicits.


(* ===================================================================== *)
(** ** A reference environment *)
(* ===================================================================== *)

(** Concrete collaborators, used to run the functions above on concrete
    inputs.  They follow the contracts the specification gives for the
    imported functions. *)
Module Ref.

(** Same output: same [(txid, vout)]. *)
Definition sameOutput (a b : UTXO) : bool :=
  String.eqb (txid a) (txid b) && (vout a =? vout b).

(** Modelled from the spec: [filterUtxos], exported by
    [../transactions/btc]: [fundable = unspent \ payload-marked], in the
    order of [unspent]. *)
Definition fundable (unspent marked : list UTXO) : list UTXO :=
  List.filter (fun u => negb (existsb (sameOutput u) marked)) unspent.

(** Candidates are taken in order while the target is not covered. *)
Fixpoint takeWhileShort (target acc : Z) (candidates : list UTXO)
    : list UTXO :=
  match candidates with
  | [] => []
  | u :: rest =>
      if acc <? target
      then u :: takeWhileShort target (acc + value u) rest
      else takeWhileShort target acc rest
  end.

(** Modelled from the spec: [selectUnspentOutputs], exported by
    [../transactions/btc]: a target-covering selection from the
    candidates, the pinned input always force-included if present. *)
Definition select (target : Z) (feeRate : Z)
    (candidates : list UTXO) (pinned : option UTXO) : list UTXO :=
  match pinned with
  | Some p => p :: takeWhileShort target (value p) candidates
  | None => takeWhileShort target 0 candidates
  end.

(** Modelled from the spec: [getFee], exported by [../transactions/btc]:
    reconciliation against the authoritative fee; it may return a
    different, larger selection, plus the resulting fee.  Here the fee is
    the flat amount [flatFee]; the selection is kept when it covers
    target plus fee and is redone for target plus fee otherwise. *)
Definition reconcile (flatFee : Z) (candidates selected : list UTXO)
    (sumOfSelected satsToSend : Z) (pinned : option UTXO)
    : list UTXO * Z :=
  if sumOfSelected <? satsToSend + flatFee
  then (select (satsToSend + flatFee) 0 candidates pinned,
        flatFee)
  else (selected, flatFee).

(** A decimal fee-rate string read as an integer. *)
Fixpoint digits (acc : Z) (s : string) : Z :=
  match s with
  | EmptyString => acc
  | String c rest => digits (10 * acc + (Z.of_N (N_of_ascii c) - 48)) rest
  end.

(** Three transactions, by their ids.  [tx1] pays 30000 and 40000 to
    [sender], [tx2] pays 40000 twice to [sender], [tx3] pays 10000 to
    [taprootAddress]. *)
Definition tx1 : string :=
  "ac741522c6e587872450231bac0f074b641bc9d7a8a92bedcd41da6d41fb5e1f".
Definition tx2 : string :=
  "f1ea03a8851ba9d25a44c5233da80c87729e163b9b6d870567d5c20597b0b02c".
Definition tx3 : string :=
  "d17801f473ef28c7cc9a9c32d7aeeb666fcb7d9d701127ff6afd900a740f177c".

Definition raw1 : string :=
  "0200000001111111111111111111111111111111111111111111111111111111111111"
  ++ "11110000000000ffffffff023075000000000000160014c0cebcd6c3d3ca8c75dc5ec6"
  ++ "2ebe55330ef910e2409c000000000000160014c0cebcd6c3d3ca8c75dc5ec62ebe5533"
  ++ "0ef910e200000000".
Definition raw2 : string :=
  "0200000001222222222222222222222222222222222222222222222222222222222222"
  ++ "22220000000000ffffffff02409c000000000000160014c0cebcd6c3d3ca8c75dc5ec6"
  ++ "2ebe55330ef910e2409c000000000000160014c0cebcd6c3d3ca8c75dc5ec62ebe5533"
  ++ "0ef910e200000000".
Definition raw3 : string :=
  "0200000001333333333333333333333333333333333333333333333333333333333333"
  ++ "33330000000000ffffffff011027000000000000225120a60869f0dbcf1dc659c9cecb"
  ++ "af8050135ea9e8cdc487053f1dc6880949dc684c00000000".

(** The raw transaction served for a transaction id. *)
Definition transactionHex (id : string) : result string :=
  if String.eqb id tx1 then Ok raw1
  else if String.eqb id tx2 then Ok raw2
  else if String.eqb id tx3 then Ok raw3
  else Throw (ThrownOther "Transaction not found").

(** The environment in which the funding address owns [unspent], of which
    [marked] carry a payload, and reconciliation charges [flatFee]. *)
Definition env (unspent marked : list UTXO) (flatFee : Z) : Env :=
  {| Rate := Z;
     Number := digits 0;
     defaultFeeRate := mkBtcFeeResponse 1 2 5;
     getUnspentUtxos := fun _ => Ok unspent;
     getOrdinalsUtxos := fun _ _ => Ok marked;
     filterUtxos := fundable;
     selectUnspentOutputs := select;
     fetchBtcFeeRate := fun _ => Ok (mkBtcFeeResponse 3 7 12);
     getFee :=
       fun candidates selected total target _ _ _ _ pinned =>
         Ok (reconcile flatFee candidates selected total target pinned);
     getTransactionHex := transactionHex |}.

(** Scenario data: a native segwit address (the funding and change
    address), a taproot address, and the address of a payee. *)
Definition sender : string := "bc1qcr8te4kr609gcawutmrza0j4xv80jy8z306fyu".
Definition payee : string := "bc1qw508d6qejxtdg4y5r3zarvary0c5xw7kv8f3t4".
Definition taprootAddress : string :=
  "bc1p5cyxnuxmeuwuvkwfem96lqzszd02n6xdcjrs20cac6yqjjwudpxqkedrcr".

Definition utxo (id : string) (n v : Z) : UTXO := mkUTXO id n v sender.

(** An inscription held at another address. *)
Definition inscription : UTXO := mkUTXO tx3 0 10000 taprootAddress.

(** Modelled from the spec: the derivation records of [./types], the
    per-input signing-path metadata; here a BIP32 path record, and its
    taproot flavour with leaf hashes. *)
Record Derivation : Type := mkDerivation {
  masterFingerprint : Buffer.t;
  pubkey : Buffer.t;
  path : string
}.

Record TapDerivation : Type := mkTapDerivation {
  tap_masterFingerprint : Buffer.t;
  tap_pubkey : Buffer.t;
  tap_path : string;
  leafHashes : list Buffer.t
}.

(** A reference container.  Of what bitcoinjs-lib checks it keeps: the
    transaction id is 64 hexadecimal digits, no outpoint is added twice,
    no derivation property is set to [undefined], and the address of an
    output carries the prefix of the network (its checksum is not
    verified). *)
Definition isTxid (id : string) : bool :=
  (String.length id =? 64)%nat
  && forallb (fun c => bool_decide (is_Some (Buffer.hexValue c)))
       (list_ascii_of_string id).

Definition inputRefused (psbt : Psbt Derivation TapDerivation)
    (i : PsbtInput Derivation TapDerivation) : option Thrown :=
  if negb (isTxid (hash i))
  then Some (ThrownOther "Invalid transaction id")
  else if existsb (fun j => String.eqb (hash j) (hash i)
                            && (index j =? index i)) (inputs psbt)
  then Some (ThrownOther "Duplicate input detected.")
  else
    match nonWitnessUtxo i, bip32Derivation i,
          tapInternalKey i, tapBip32Derivation i with
    | Some _, None, _, _ =>
        Some (ThrownOther "Data for input key bip32Derivation is incorrect")
    | _, _, Some _, None =>
        Some (ThrownOther "Data for input key tapBip32Derivation is incorrect")
    | _, _, _, _ => None
    end.

Definition outputRefused (psbt : Psbt Derivation TapDerivation)
    (o : PsbtOutput) : option Thrown :=
  if String.prefix
       (match psbt_network psbt with bitcoin => "bc1" | testnet => "tb1" end)
       (o_address o)
  then None
  else Some (ThrownOther "Address has no matching Script").

Definition psbtLib : PsbtLib Derivation TapDerivation :=
  {| inputProblem := inputRefused; outputProblem := outputRefused |}.

(** A [StacksLib] whose signatures are their hexadecimal text and whose
    transactions are read from their serialized text. *)
Definition stacksLib : StacksLib :=
  {| MessageSignature := string;
     ConditionFields := Z;          (* nonce *)
     AuthFields := unit;
     TxFields := string |}.

(** Modelled from the spec: [createMessageSignature] of
    [@stacks/transactions] ([encodeSignature] of the interface list): a
    recoverable signature is 65 bytes, 130 hexadecimal digits. *)
Definition encodeSignature (hex : string)
    : result (MessageSignature stacksLib) :=
  if (String.length hex =? 130)%nat then Ok hex
  else Throw (ThrownOther "Invalid signature").

Definition emptySignature : string :=
  Buffer.toString_hex (repeat Byte.x00 65).

(** A deserialized transaction that is not signed yet. *)
Definition unsignedTx (body : string) : StacksTransaction stacksLib :=
  @mkStacksTransaction stacksLib
    (@mkAuthorization stacksLib
       (@mkSpendingCondition stacksLib (Some emptySignature) 7) tt)
    body.

Definition deserialize (tx : string + Buffer.t)
    : result (StacksTransaction stacksLib) :=
  match tx with
  | inl EmptyString => Throw (ThrownOther "Could not deserialize")
  | inl s => Ok (unsignedTx s)
  | inr b => Ok (unsignedTx (Buffer.toString_hex b))
  end.

Definition stacksFunctions : StacksFunctions stacksLib :=
  {| deserializeTransaction := deserialize;
     createMessageSignature := encodeSignature |}.

(** A raw signature of 65 bytes. *)
Definition signatureVRS : Buffer.t :=
  Byte.x01 :: repeat Byte.xab 64.

End Ref.

(* ===================================================================== *)
(** ** Scenarios *)
(* ===================================================================== *)

Module Scenario.

Import Ref.

(** Recipients for 50000; candidates of 30000 and 40000; a fee of 1500. *)
Definition twoCandidates : list UTXO :=
  [utxo tx1 0 30000; utxo tx2 1 40000].

Definition covered : M TransactionData :=
  getTransactionData (env twoCandidates [] 1500) Mainnet sender
    [mkRecipient payee 50000] None None.

(** Recipients for 100000; candidates that sum to 90000. *)
Definition ninetyThousand : list UTXO :=
  [utxo tx1 0 50000; utxo tx2 0 40000].

Definition short : M TransactionData :=
  getTransactionData (env ninetyThousand [] 1500) Mainnet sender
    [mkRecipient payee 60000; mkRecipient sender 40000] None None.

(** One candidate of exactly the amount to send; a fee of 1500. *)
Definition exact : M TransactionData :=
  getTransactionData (env [utxo tx1 0 50000] [] 1500) Mainnet sender
    [mkRecipient payee 50000] None None.

(** A pinned inscription of 10000 held at another address, one candidate
    of 5000, and 12000 to send; a fee of 1500. *)
Definition pinned : M TransactionData :=
  getTransactionData (env [utxo tx1 0 5000] [] 1500) Mainnet sender
    [mkRecipient payee 12000] None (Some inscription).

(** The first candidate covers the 30000 to send, the two together do not
    cover 30000 plus a fee of 15000. *)
Definition feeTooHigh : M TransactionData :=
  getTransactionData (env [utxo tx1 0 30000; utxo tx2 0 10000] [] 15000)
    Mainnet sender [mkRecipient payee 30000] None None.

(** A pinned output that the funding address owns itself, with a fee rate
    given by the caller. *)
Definition ownInscription : UTXO := utxo tx3 0 10000.

Definition pinnedOwn : M TransactionData :=
  getTransactionData
    (env [utxo tx1 0 30000; ownInscription] [ownInscription] 1000)
    Mainnet sender [mkRecipient payee 10000] (Some "5") (Some ownInscription).

(** Two selected outputs of one parent transaction. *)
Definition siblings : list UTXO := [utxo tx1 0 30000; utxo tx1 1 40000].

(** A selection over two addresses: the change (segwit) address [sender]
    and a taproot address. *)
Definition mixedSelection : list UTXO :=
  [utxo tx1 0 30000; inscription; utxo tx1 1 40000].

(** The script of [sender], the script and the internal key of
    [taprootAddress], and the derivation records of the two addresses. *)
Definition witnessScript : Buffer.t :=
  Buffer.from_hex "0014c0cebcd6c3d3ca8c75dc5ec62ebe55330ef910e2".
Definition taprootScript : Buffer.t :=
  Buffer.from_hex
    "5120a60869f0dbcf1dc659c9cecbaf8050135ea9e8cdc487053f1dc6880949dc684c".
Definition internalKey : Buffer.t :=
  Buffer.from_hex
    "cc8a4bc64d897bddc5fbc2f670f7a8ba0b386779106cf1223c6fc5d7cd6fc115".

Definition segwitDerivation : option (list Derivation) :=
  Some [mkDerivation (Buffer.from_hex "73c5da0a")
          (Buffer.from_hex
             "0330d54fd0dd420a6e5f8d3624f5f3482cae350f79d5f0753bf5beef9c2d91af3c")
          "m/84'/0'/0'/0/0"].

Definition taprootDerivation : option (list TapDerivation) :=
  Some [mkTapDerivation (Buffer.from_hex "73c5da0a") internalKey
          "m/86'/0'/0'/0/0" []].

(** The three assemblers on these selections, with the reference
    container. *)
Definition segwitRun : M (Psbt Derivation TapDerivation) :=
  createNativeSegwitPsbt psbtLib (env [] [] 0) Mainnet
    [mkRecipient payee 50000] sender 18500 siblings segwitDerivation
    witnessScript.

Definition taprootRun : M (Psbt Derivation TapDerivation) :=
  createTaprootPsbt psbtLib Mainnet [mkRecipient payee 9000] taprootAddress 0
    [inscription] taprootDerivation taprootScript internalKey.

Definition mixedRecipients : list Recipient :=
  [mkRecipient payee 50000; mkRecipient taprootAddress 10000].

Definition mixedRun : M (Psbt Derivation TapDerivation) :=
  createMixedPsbt psbtLib (env [] [] 0) Mainnet mixedRecipients sender 18500
    mixedSelection segwitDerivation witnessScript taprootDerivation
    taprootScript internalKey.

(** A recipient amount of [2^53] satoshis, one more than the largest safe
    integer. *)
Definition largeAmountRun : M (Psbt Derivation TapDerivation) :=
  createTaprootPsbt psbtLib Mainnet [mkRecipient payee (2 ^ 53)]
    taprootAddress 0 [inscription] taprootDerivation taprootScript
    internalKey.

(** The segwit assembler without derivation records, and on the same
    outpoint twice. *)
Definition noDerivationRun : M (Psbt Derivation TapDerivation) :=
  createNativeSegwitPsbt psbtLib (env [] [] 0) Mainnet
    [mkRecipient payee 50000] sender 18500 siblings None witnessScript.

Definition twiceRun : M (Psbt Derivation TapDerivation) :=
  createNativeSegwitPsbt psbtLib (env [] [] 0) Mainnet
    [mkRecipient payee 50000] sender 8500
    [utxo tx1 0 30000; utxo tx1 0 30000] segwitDerivation witnessScript.

End Scenario.

(* ===================================================================== *)
(** ** Notions used in the statements *)
(* ===================================================================== *)

(** [target = Σ recipient.amountSats], as [getTransactionData] folds it. *)
Definition target (recipients : list Recipient) : Z :=
  fold_left (fun acc value => acc + amountSats value) recipients 0.

(** The fee rate of the provisional phase. *)
Definition provisionalRate (env : Env) (feeRateInput : option string)
    : Rate env :=
  match truthy feeRateInput with
  | Some s => Number env s
  | None => regular (defaultFeeRate env)
  end.

(** The provisional selection. *)
Definition provisional (env : Env) (recipients : list Recipient)
    (feeRateInput : option string) (candidates : list UTXO)
    (ordinalUtxo : option UTXO) : list UTXO :=
  selectUnspentOutputs env (target recipients)
    (provisionalRate env feeRateInput) candidates ordinalUtxo.

(** The fee-rate argument of the reconciliation: [feeRateInput || feeRate]. *)
Definition feeRateOrTiers (env : Env) (feeRateInput : option string)
    (tiers : BtcFeeResponse (Rate env)) : string + BtcFeeResponse (Rate env) :=
  match truthy feeRateInput with
  | Some s => inl s
  | None => inr tiers
  end.

(** The trace of the gathering step, and of a run that reached the
    reconciliation. *)
Definition gatherTrace (network : NetworkType) (senderAddress : string)
    : list Event :=
  [EvGetUnspentUtxos senderAddress; EvGetOrdinalsUtxos network senderAddress].

Definition fullTrace (network : NetworkType) (senderAddress : string)
    : list Event :=
  gatherTrace network senderAddress ++ [EvFetchBtcFeeRate network; EvGetFee].

(** Same [(txid, vout)] pair. *)
Definition sameOutpoint (a b : UTXO) : Prop :=
  txid a = txid b /\ vout a = vout b.

(** The distinct transaction ids a selection refers to. *)
Definition distinctTxids (utxos : list UTXO) : list string :=
  remove_dups (map txid utxos).

(** Every parent transaction of a selection can be fetched. *)
Definition allFetched (env : Env) (utxos : list UTXO) : Prop :=
  Forall (fun u => exists h, getTransactionHex env (txid u) = Ok h) utxos.

(** The bytes stored for a transaction id once its fetch has succeeded. *)
Definition parentBytes (env : Env) (id : string) : Buffer.t :=
  match getTransactionHex env id with
  | Ok txHex => Buffer.from_hex txHex
  | Throw _ => []
  end.

(** The fetches a selection gives rise to, input by input. *)
Definition fetchTrace (utxos : list UTXO) : list Event :=
  map (fun u => EvGetTransactionHex (txid u)) utxos.

(** The outputs every assembler is to emit: one per recipient, in order,
    then one to the change address when the change is positive. *)
Definition recipientOutputs (recipients : list Recipient) : list PsbtOutput :=
  map (fun r => mkPsbtOutput (r_address r) (JsNumber.toNumber (amountSats r)))
      recipients.

Definition changeOutputs (changeAddress : string) (changeValue : Z)
    : list PsbtOutput :=
  if 0 <? changeValue
  then [mkPsbtOutput changeAddress (JsNumber.toNumber changeValue)]
  else [].

(** The synchronous part the three assemblers share, for the input
    literal [input]: one [addInput] per selected output, then the
    outputs. *)
Definition build {Bip32Derivation TapBip32Derivation : Type}
    (lib : PsbtLib Bip32Derivation TapBip32Derivation)
    (network : NetworkType) (recipients : list Recipient)
    (changeAddress : string) (changeValue : Z) (inputUTXOs : list UTXO)
    (input : UTXO -> PsbtInput Bip32Derivation TapBip32Derivation)
    : result (Psbt Bip32Derivation TapBip32Derivation) :=
  andThen
    (forOf inputUTXOs (fun psbt utxo => addInput lib psbt (input utxo))
       (new_Psbt (btcNetworkOf network)))
    (fun psbt =>
       addRecipientsAndChange lib psbt recipients changeAddress changeValue).

Section Styles.

Context {Bip32Derivation TapBip32Derivation : Type}.

(** The segwit-style construction of the input that spends [u]:
    [witnessUtxo] plus [nonWitnessUtxo] plus [bip32Derivation]. *)
Definition segwitStyle (env : Env)
    (inputDerivation : option (list Bip32Derivation))
    (witnessScript : Buffer.t) (u : UTXO)
    (i : PsbtInput Bip32Derivation TapBip32Derivation) : Prop :=
  hash i = txid u /\ index i = vout u
  /\ witnessUtxo i = mkWitnessUtxo witnessScript (value u)
  /\ nonWitnessUtxo i = Some (parentBytes env (txid u))
  /\ bip32Derivation i = inputDerivation
  /\ tapBip32Derivation i = None /\ tapInternalKey i = None.

(** The taproot-style construction: [witnessUtxo] plus
    [tapBip32Derivation] plus [tapInternalKey]. *)
Definition taprootStyle
    (inputDerivation : option (list TapBip32Derivation))
    (taprootScript internalKey : Buffer.t) (u : UTXO)
    (i : PsbtInput Bip32Derivation TapBip32Derivation) : Prop :=
  hash i = txid u /\ index i = vout u
  /\ witnessUtxo i = mkWitnessUtxo taprootScript (value u)
  /\ tapBip32Derivation i = inputDerivation
  /\ tapInternalKey i = Some internalKey
  /\ nonWitnessUtxo i = None /\ bip32Derivation i = None.

(** The policy on sequence numbers. *)
Definition replaceable (i : PsbtInput Bip32Derivation TapBip32Derivation)
    : Prop :=
  sequence i = 0xFFFFFFFD.

End Styles.

(* ===================================================================== *)
(** ** Environments with another collaborator, totals of a container *)
(* ===================================================================== *)

(** [env] with another answer of [esploraProvider.getUnspentUtxos]. *)
Definition withGetUnspentUtxos (env : Env)
    (f : string -> result (list UTXO)) : Env :=
  {| Rate := Rate env;
     Number := Number env;
     defaultFeeRate := defaultFeeRate env;
     getUnspentUtxos := f;
     getOrdinalsUtxos := getOrdinalsUtxos env;
     filterUtxos := filterUtxos env;
     selectUnspentOutputs := selectUnspentOutputs env;
     fetchBtcFeeRate := fetchBtcFeeRate env;
     getFee := getFee env;
     getTransactionHex := getTransactionHex env |}.

(** [env] with another answer of [fetchBtcFeeRate]. *)
Definition withFetchBtcFeeRate (env : Env)
    (f : NetworkType -> result (BtcFeeResponse (Rate env))) : Env :=
  {| Rate := Rate env;
     Number := Number env;
     defaultFeeRate := defaultFeeRate env;
     getUnspentUtxos := getUnspentUtxos env;
     getOrdinalsUtxos := getOrdinalsUtxos env;
     filterUtxos := filterUtxos env;
     selectUnspentOutputs := selectUnspentOutputs env;
     fetchBtcFeeRate := f;
     getFee := getFee env;
     getTransactionHex := getTransactionHex env |}.

(** [env] with another answer of [esploraProvider.getTransactionHex]. *)
Definition withGetTransactionHex (env : Env)
    (f : string -> result string) : Env :=
  {| Rate := Rate env;
     Number := Number env;
     defaultFeeRate := defaultFeeRate env;
     getUnspentUtxos := getUnspentUtxos env;
     getOrdinalsUtxos := getOrdinalsUtxos env;
     filterUtxos := filterUtxos env;
     selectUnspentOutputs := selectUnspentOutputs env;
     fetchBtcFeeRate := fetchBtcFeeRate env;
     getFee := getFee env;
     getTransactionHex := f |}.

Definition isGetFee (ev : Event) : bool :=
  match ev with EvGetFee => true | _ => false end.

(** The integer a JavaScript number stands for, when it is finite. *)
Definition exactValue (n : JsNumber.t) : option Z :=
  match n with
  | JsNumber.Finite z => Some z
  | _ => None
  end.

(** The value spent by the inputs of a container (their [witnessUtxo]
    values), and the value its outputs pay, when every output value is
    finite. *)
Definition inputTotal {B T : Type} (psbt : Psbt B T) : Z :=
  fold_right (fun i acc => wu_value (witnessUtxo i) + acc) 0 (inputs psbt).

Definition outputTotal {B T : Type} (psbt : Psbt B T) : option Z :=
  fold_right
    (fun o acc =>
       match exactValue (o_value o), acc with
       | Some v, Some a => Some (v + a)
       | _, _ => None
       end)
    (Some 0) (outputs psbt).

(** Failing collaborators for the scenarios. *)
Module Outage.

Definition timeout : Thrown := ThrownOther "timeout".

(** The unspent outputs cannot be retrieved. *)
Definition noUnspent : Env :=
  withGetUnspentUtxos (Ref.env Scenario.twoCandidates [] 1500)
    (fun _ => Throw timeout).

(** The fee-rate service is down. *)
Definition noFeeRate : Env :=
  withFetchBtcFeeRate (Ref.env Scenario.twoCandidates [] 1500)
    (fun _ => Throw timeout).

(** The parent transaction [tx3] cannot be retrieved. *)
Definition noParent : Env :=
  withGetTransactionHex (Ref.env [] [] 0)
    (fun id => if String.eqb id Ref.tx3 then Throw timeout
               else Ref.transactionHex id).

End Outage.

(* ===================================================================== *)
(** * Properties *)
(* ===================================================================== *)

(** ** Sums *)

Lemma fold_left_add_shift {A} (f : A -> Z) (l : list A) (a : Z) :
  fold_left (fun acc x => acc + f x) l a =
  a + fold_left (fun acc x => acc + f x) l 0.
Proof.
  revert a. induction l as [|x l IH]; intros a; cbn [fold_left].
  - lia.
  - rewrite (IH (a + f x)), (IH (0 + f x)). lia.
Qed.

Lemma sumUnspentOutputs_cons (u : UTXO) (l : list UTXO) :
  sumUnspentOutputs (u :: l) = value u + sumUnspentOutputs l.
Proof.
  unfold sumUnspentOutputs. simpl. apply fold_left_add_shift.
Qed.

Lemma sumUnspentOutputs_Permutation (l k : list UTXO) :
  l ≡ₚ k -> sumUnspentOutputs l = sumUnspentOutputs k.
Proof.
  induction 1 as [|x l k _ IH|x y l|l k m _ IH1 _ IH2].
  - reflexivity.
  - rewrite !sumUnspentOutputs_cons. lia.
  - rewrite !sumUnspentOutputs_cons. lia.
  - congruence.
Qed.

Lemma sumUnspentOutputs_app (l k : list UTXO) :
  sumUnspentOutputs (l ++ k) = sumUnspentOutputs l + sumUnspentOutputs k.
Proof.
  induction l as [|x l IH]; simpl.
  - reflexivity.
  - rewrite !sumUnspentOutputs_cons, IH. lia.
Qed.

Lemma sumUnspentOutputs_nonneg (l : list UTXO) :
  Forall (fun u => 0 <= value u) l -> 0 <= sumUnspentOutputs l.
Proof.
  induction 1 as [|x l Hx _ IH].
  - reflexivity.
  - rewrite sumUnspentOutputs_cons. lia.
Qed.

(** A selection drawn from the candidates is worth no more than they are. *)
Lemma sumUnspentOutputs_submseteq (sel candidates : list UTXO) :
  sel ⊆+ candidates ->
  Forall (fun u => 0 <= value u) candidates ->
  sumUnspentOutputs sel <= sumUnspentOutputs candidates.
Proof.
  intros Hsub Hpos.
  apply submseteq_Permutation in Hsub as [k Hk].
  rewrite (sumUnspentOutputs_Permutation _ _ Hk), sumUnspentOutputs_app.
  assert (0 <= sumUnspentOutputs k); [|lia].
  apply sumUnspentOutputs_nonneg.
  rewrite Hk in Hpos. by apply Forall_app in Hpos as [_ ?].
Qed.

(** ** [getTransactionData], step by step *)

Section GetTransactionData.

Variable env : Env.
Variables (network : NetworkType) (senderAddress : string).
Variables (recipients : list Recipient) (feeRateInput : option string).
Variable ordinalUtxo : option UTXO.
Variables unspentOutputs addressOrdinalsUtxos : list UTXO.

Hypothesis Hunspent :
  getUnspentUtxos env senderAddress = Ok unspentOutputs.
Hypothesis Hmarked :
  getOrdinalsUtxos env network senderAddress = Ok addressOrdinalsUtxos.

Let candidates := filterUtxos env unspentOutputs addressOrdinalsUtxos.
Let selected := provisional env recipients feeRateInput candidates ordinalUtxo.
Let outcome :=
  run (getTransactionData env network senderAddress recipients feeRateInput
         ordinalUtxo).

(** The flag computed from the unspent set. *)
Let pinnedIsOwnFunds : bool :=
  match ordinalUtxo with
  | Some o =>
      existsb (fun utxo => String.eqb (txid utxo) (txid o)
                           && (vout utxo =? vout o)) unspentOutputs
  | None => false
  end.

(** First checkpoint: the provisional selection is short of the target. *)
Lemma getTransactionData_fast_reject :
  sumUnspentOutputs selected < target recipients ->
  outcome = (Throw insufficientFunds, gatherTrace network senderAddress).
Proof.
  intros Hlt. apply Z.ltb_lt in Hlt.
  subst outcome selected candidates.
  unfold run, getTransactionData, bind, promise_all2, call, throw.
  rewrite Hunspent, Hmarked. simpl.
  unfold provisional, target, provisionalRate in Hlt.
  by rewrite Hlt.
Qed.

(** Past the first checkpoint both network calls of the second phase are
    made, in this order, whatever they answer. *)
Lemma getTransactionData_fee_fetch_fails e :
  target recipients <= sumUnspentOutputs selected ->
  fetchBtcFeeRate env network = Throw e ->
  outcome =
    (Throw e, gatherTrace network senderAddress ++ [EvFetchBtcFeeRate network]).
Proof.
  intros Hge Hfetch. apply Z.ltb_ge in Hge.
  subst outcome selected candidates.
  unfold run, getTransactionData, bind, promise_all2, call, throw.
  rewrite Hunspent, Hmarked. simpl.
  unfold provisional, target, provisionalRate in Hge.
  by rewrite Hge, Hfetch.
Qed.

Section Reconciled.

Variable tiers : BtcFeeResponse (Rate env).
Hypothesis Hcovered : target recipients <= sumUnspentOutputs selected.
Hypothesis Htiers : fetchBtcFeeRate env network = Ok tiers.

Let reconciliation :=
  getFee env candidates selected (sumUnspentOutputs selected)
    (target recipients) recipients
    (feeRateOrTiers env feeRateInput tiers) senderAddress network ordinalUtxo.

Lemma getTransactionData_getFee_fails e :
  reconciliation = Throw e ->
  outcome = (Throw e, fullTrace network senderAddress).
Proof.
  intros Hfee. apply Z.ltb_ge in Hcovered.
  subst outcome reconciliation selected candidates.
  unfold run, getTransactionData, bind, promise_all2, call, throw.
  rewrite Hunspent, Hmarked. simpl.
  unfold provisional, target, provisionalRate, feeRateOrTiers in *.
  by rewrite Hcovered, Htiers, Hfee.
Qed.

(** The reconciled selection has the size of the provisional one: the
    provisional selection and its total are kept, and nothing is
    re-checked. *)
Lemma getTransactionData_same_size newSelected fee0 :
  reconciliation = Ok (newSelected, fee0) ->
  length newSelected = length selected ->
  outcome =
    (Ok {| selectedUTXOs := selected;
           changeValue :=
             sumUnspentOutputs selected - target recipients - fee0;
           fee := fee0;
           ordinalUtxoInPaymentAddress := pinnedIsOwnFunds |},
     fullTrace network senderAddress).
Proof.
  intros Hfee Hlen. apply Z.ltb_ge in Hcovered. apply Nat.eqb_eq in Hlen.
  subst outcome reconciliation selected candidates pinnedIsOwnFunds.
  unfold run, getTransactionData, bind, promise_all2, call, throw, ret.
  rewrite Hunspent, Hmarked. simpl.
  unfold provisional, target, provisionalRate, feeRateOrTiers in *.
  by rewrite Hcovered, Htiers, Hfee, Hlen.
Qed.

(** The reconciled selection has another size and does not cover target
    plus fee: second checkpoint. *)
Lemma getTransactionData_revalidation_fails newSelected fee0 :
  reconciliation = Ok (newSelected, fee0) ->
  length newSelected <> length selected ->
  sumUnspentOutputs newSelected < target recipients + fee0 ->
  outcome = (Throw insufficientFunds, fullTrace network senderAddress).
Proof.
  intros Hfee Hlen Hlt. apply Z.ltb_ge in Hcovered.
  apply Nat.eqb_neq in Hlen. apply Z.ltb_lt in Hlt.
  subst outcome reconciliation selected candidates.
  unfold run, getTransactionData, bind, promise_all2, call, throw, ret.
  rewrite Hunspent, Hmarked. simpl.
  unfold provisional, target, provisionalRate, feeRateOrTiers in *.
  by rewrite Hcovered, Htiers, Hfee, Hlen, Hlt.
Qed.

(** The reconciled selection has another size and covers target plus fee. *)
Lemma getTransactionData_reselected newSelected fee0 :
  reconciliation = Ok (newSelected, fee0) ->
  length newSelected <> length selected ->
  target recipients + fee0 <= sumUnspentOutputs newSelected ->
  outcome =
    (Ok {| selectedUTXOs := newSelected;
           changeValue :=
             sumUnspentOutputs newSelected - target recipients - fee0;
           fee := fee0;
           ordinalUtxoInPaymentAddress := pinnedIsOwnFunds |},
     fullTrace network senderAddress).
Proof.
  intros Hfee Hlen Hge. apply Z.ltb_ge in Hcovered.
  apply Nat.eqb_neq in Hlen. apply Z.ltb_ge in Hge.
  subst outcome reconciliation selected candidates pinnedIsOwnFunds.
  unfold run, getTransactionData, bind, promise_all2, call, throw, ret.
  rewrite Hunspent, Hmarked. simpl.
  unfold provisional, target, provisionalRate, feeRateOrTiers in *.
  by rewrite Hcovered, Htiers, Hfee, Hlen, Hge.
Qed.

End Reconciled.

(** Every run that starts from a successful gathering ends in one of the
    five ways above. *)
Inductive Ending : Prop :=
| FastReject
    (Hshort : sumUnspentOutputs selected < target recipients)
    (Hout : outcome =
              (Throw insufficientFunds, gatherTrace network senderAddress))
| CollaboratorFails (e : Thrown) (tr : list Event)
    (Hcovered : target recipients <= sumUnspentOutputs selected)
    (Hout : outcome = (Throw e, tr))
| SameSize (newSelected : list UTXO) (fee0 : Z)
    (Hcovered : target recipients <= sumUnspentOutputs selected)
    (Hlen : length newSelected = length selected)
    (Hout : outcome =
       (Ok {| selectedUTXOs := selected;
              changeValue :=
                sumUnspentOutputs selected - target recipients - fee0;
              fee := fee0;
              ordinalUtxoInPaymentAddress := pinnedIsOwnFunds |},
        fullTrace network senderAddress))
| RevalidationFails (newSelected : list UTXO) (fee0 : Z)
    (Hcovered : target recipients <= sumUnspentOutputs selected)
    (Hlen : length newSelected <> length selected)
    (Hshort : sumUnspentOutputs newSelected < target recipients + fee0)
    (Hout : outcome =
              (Throw insufficientFunds, fullTrace network senderAddress))
| Reselected (newSelected : list UTXO) (fee0 : Z)
    (Hcovered : target recipients <= sumUnspentOutputs selected)
    (Hlen : length newSelected <> length selected)
    (Hpaid : target recipients + fee0 <= sumUnspentOutputs newSelected)
    (Hout : outcome =
       (Ok {| selectedUTXOs := newSelected;
              changeValue :=
                sumUnspentOutputs newSelected - target recipients - fee0;
              fee := fee0;
              ordinalUtxoInPaymentAddress := pinnedIsOwnFunds |},
        fullTrace network senderAddress)).

Lemma getTransactionData_ending : Ending.
Proof.
  destruct (Z.lt_ge_cases (sumUnspentOutputs selected) (target recipients))
    as [Hshort|Hcovered].
  { by apply FastReject, getTransactionData_fast_reject. }
  destruct (fetchBtcFeeRate env network) as [tiers|e] eqn:Htiers.
  2: { eapply CollaboratorFails; [done|].
       by apply getTransactionData_fee_fetch_fails. }
  destruct (getFee env candidates selected (sumUnspentOutputs selected)
              (target recipients) recipients
              (feeRateOrTiers env feeRateInput tiers) senderAddress network
              ordinalUtxo) as [[newSelected fee0]|e] eqn:Hfee.
  2: { eapply CollaboratorFails; [done|].
       by eapply getTransactionData_getFee_fails. }
  destruct (decide (length newSelected = length selected)) as [Hlen|Hlen].
  { eapply SameSize; [done..|].
    by eapply getTransactionData_same_size. }
  destruct (Z.lt_ge_cases (sumUnspentOutputs newSelected)
              (target recipients + fee0)) as [Hshort|Hpaid].
  - eapply RevalidationFails; [done..|].
    by eapply getTransactionData_revalidation_fails.
  - eapply Reselected; [done..|].
    by eapply getTransactionData_reselected.
Qed.

Lemma gatherTrace_no_fee_fetch :
  countEvents isFeeRateFetch (gatherTrace network senderAddress) = 0%nat.
Proof. reflexivity. Qed.

Lemma fullTrace_NoDup : NoDup (fullTrace network senderAddress).
Proof.
  unfold fullTrace, gatherTrace. simpl.
  repeat (apply NoDup_cons; split;
          [rewrite ?elem_of_cons, elem_of_nil; intuition discriminate|]).
  apply NoDup_nil_2.
Qed.

(** C1 (amended).  In every successful outcome [changeValue] equals the
    sum of the values of the returned [selectedUTXOs] minus the sum of the
    recipient amounts minus the returned [fee].  It is non-negative when
    the returned selection has another size than the provisional one (the
    re-validation ran); when the sizes agree the provisional selection is
    returned without a re-check and [changeValue] is only known to be at
    least [- fee]. *)
Theorem C1_change_value (r : TransactionData) :
  fst outcome = Ok r ->
  changeValue r =
    sumUnspentOutputs (selectedUTXOs r) - target recipients - fee r
  /\ (length (selectedUTXOs r) <> length selected -> 0 <= changeValue r)
  /\ (length (selectedUTXOs r) = length selected ->
      selectedUTXOs r = selected /\ - fee r <= changeValue r).
Proof.
  intros Hok.
  destruct getTransactionData_ending
    as [? Hout|e tr ? Hout|new fee0 ? Hlen Hout|new fee0 ? ? ? Hout
        |new fee0 ? Hlen ? Hout];
    rewrite Hout in Hok; simpl in Hok; try discriminate;
    injection Hok as <-; simpl.
  - split; [reflexivity|]. split; [congruence|]. intros _. split; [done|lia].
  - split; [reflexivity|]. split; [lia|]. intros Heq. by destruct Hlen.
Qed.

(** C2 (amended).  When the provisional selection is drawn from the
    candidate set [C] (a sub-multiset of it, as it is when no pinned input
    from outside [C] is forced in), the candidates have non-negative
    values and [sum(C) < sum of the recipient amounts], the call fails with
    the insufficient-funds status before any fee-rate fetch: the trace
    holds no invocation of the fee-tier collaborator. *)
Theorem C2_fast_reject_before_fee_fetch :
  selected ⊆+ candidates ->
  Forall (fun u => 0 <= value u) candidates ->
  sumUnspentOutputs candidates < target recipients ->
  fst outcome = Throw insufficientFunds
  /\ countEvents isFeeRateFetch (snd outcome) = 0%nat.
Proof.
  intros Hsub Hpos Hlt.
  pose proof (sumUnspentOutputs_submseteq _ _ Hsub Hpos) as Hle.
  rewrite getTransactionData_fast_reject by lia.
  split; [reflexivity | apply gatherTrace_no_fee_fetch].
Qed.

(** C4 (amended).  At either insufficiency checkpoint (the provisional
    fast-reject, or the re-validation of a reconciled selection of another
    size) the call rejects with the bare status code
    [ErrorCodes.InSufficientBalanceWithTxFee] -- the [statusCode] of a
    [ResponseError], thrown as a literal, not the error object -- the
    same value at both checkpoints; every collaborator has been invoked
    at most once: nothing is retried. *)
Theorem C4_insufficient_funds_status :
  (sumUnspentOutputs selected < target recipients
   \/ exists tiers newSelected fee0,
        target recipients <= sumUnspentOutputs selected
        /\ fetchBtcFeeRate env network = Ok tiers
        /\ getFee env candidates selected (sumUnspentOutputs selected)
             (target recipients) recipients
             (feeRateOrTiers env feeRateInput tiers) senderAddress network
             ordinalUtxo = Ok (newSelected, fee0)
        /\ length newSelected <> length selected
        /\ sumUnspentOutputs newSelected < target recipients + fee0) ->
  fst outcome = Throw (ThrownStatusCode InSufficientBalanceWithTxFee)
  /\ (forall e : ResponseError, fst outcome <> Throw (ThrownResponseError e))
  /\ NoDup (snd outcome)
  /\ (snd outcome = gatherTrace network senderAddress
      \/ snd outcome = fullTrace network senderAddress).
Proof.
  intros [Hshort|(tiers & new & fee0 & Hcov & Htiers & Hfee & Hlen & Hshort)].
  - rewrite getTransactionData_fast_reject by done. simpl.
    split; [reflexivity|]. split; [discriminate|]. split; [|by left].
    pose proof fullTrace_NoDup as Hnd. unfold fullTrace in Hnd.
    by apply NoDup_app in Hnd as [? _].
  - erewrite getTransactionData_revalidation_fails by done. simpl.
    split; [reflexivity|]. split; [discriminate|].
    split; [apply fullTrace_NoDup | by right].
Qed.

(** C5.  When a pinned input is supplied, the returned
    [ordinalUtxoInPaymentAddress] is true exactly when some member of the
    fetched unspent set has the same [(txid, vout)] pair as the pinned
    input; when none is supplied it is false. *)
Theorem C5_pinned_in_payment_address (r : TransactionData) :
  fst outcome = Ok r ->
  match ordinalUtxo with
  | Some o =>
      ordinalUtxoInPaymentAddress r = true <->
      exists u, In u unspentOutputs /\ sameOutpoint u o
  | None => ordinalUtxoInPaymentAddress r = false
  end.
Proof.
  intros Hok.
  assert (ordinalUtxoInPaymentAddress r = pinnedIsOwnFunds) as ->.
  { destruct getTransactionData_ending
      as [? Hout|e tr ? Hout|new fee0 ? Hlen Hout|new fee0 ? ? ? Hout
          |new fee0 ? Hlen ? Hout];
      rewrite Hout in Hok; simpl in Hok; try discriminate;
      by injection Hok as <-. }
  subst pinnedIsOwnFunds. destruct ordinalUtxo as [o|]; [|reflexivity].
  rewrite existsb_exists. unfold sameOutpoint.
  split; intros (u & Hin & Hu); exists u; (split; [done|]).
  - apply andb_true_iff in Hu as [Ht Hv].
    by apply String.eqb_eq in Ht; apply Z.eqb_eq in Hv.
  - destruct Hu as [Ht Hv]. apply andb_true_iff.
    by split; [apply String.eqb_eq | apply Z.eqb_eq].
Qed.

End GetTransactionData.

(** C1: a successful run (50000 to send, candidates of 30000 and 40000, a
    fee of 1500) with its change of 18500. *)
Lemma C1_change_value_witness :
  exists r,
    fst (run Scenario.covered) = Ok r
    /\ changeValue r = 18500
    /\ changeValue r =
         sumUnspentOutputs (selectedUTXOs r)
         - target [mkRecipient Ref.payee 50000] - fee r.
Proof.
  eexists. split; [reflexivity|]. split; [reflexivity|].
  eapply (C1_change_value (Ref.env Scenario.twoCandidates [] 1500) Mainnet
            Ref.sender [mkRecipient Ref.payee 50000] None None
            Scenario.twoCandidates [] eq_refl eq_refl _ eq_refl).
Defined.

(** C1, as stated, fails: with a single candidate of exactly the amount to
    send, the reconciliation returns a selection of the same size and a
    fee of 1500; the call succeeds with a change of -1500. *)
Lemma C1_negative_change_counterexample :
  run Scenario.exact
  = (Ok {| selectedUTXOs := [Ref.utxo Ref.tx1 0 50000];
           changeValue := -1500;
           fee := 1500;
           ordinalUtxoInPaymentAddress := false |},
     fullTrace Mainnet Ref.sender)
  /\ exists r, fst (run Scenario.exact) = Ok r /\ changeValue r < 0.
Proof.
  split; [reflexivity|]. eexists. split; reflexivity.
Qed.

(** C2: 100000 to send from candidates that sum to 90000. *)
Lemma C2_fast_reject_before_fee_fetch_witness :
  fst (run Scenario.short) = Throw insufficientFunds
  /\ countEvents isFeeRateFetch (snd (run Scenario.short)) = 0%nat.
Proof.
  apply (C2_fast_reject_before_fee_fetch
           (Ref.env Scenario.ninetyThousand [] 1500) Mainnet Ref.sender
           [mkRecipient Ref.payee 60000; mkRecipient Ref.sender 40000]
           None None Scenario.ninetyThousand [] eq_refl eq_refl).
  - reflexivity.
  - repeat constructor; discriminate.
  - reflexivity.
Defined.

(** C2, as stated, fails: the candidates sum to 5000, less than the 12000
    to send, yet the pinned input of 10000 is part of the provisional
    selection; the fee rate is fetched once and the call succeeds. *)
Lemma C2_pinned_input_counterexample :
  sumUnspentOutputs (Ref.fundable [Ref.utxo Ref.tx1 0 5000] [])
    < target [mkRecipient Ref.payee 12000]
  /\ run Scenario.pinned
      = (Ok {| selectedUTXOs := [Ref.inscription; Ref.utxo Ref.tx1 0 5000];
               changeValue := 1500;
               fee := 1500;
               ordinalUtxoInPaymentAddress := false |},
         fullTrace Mainnet Ref.sender)
  /\ countEvents isFeeRateFetch (snd (run Scenario.pinned)) = 1%nat.
Proof. repeat split; reflexivity. Qed.

(** C4: the fast-reject of the 100000-from-90000 run. *)
Lemma C4_insufficient_funds_status_witness :
  fst (run Scenario.short)
    = Throw (ThrownStatusCode InSufficientBalanceWithTxFee)
  /\ NoDup (snd (run Scenario.short)).
Proof.
  pose proof
    (C4_insufficient_funds_status
       (Ref.env Scenario.ninetyThousand [] 1500) Mainnet Ref.sender
       [mkRecipient Ref.payee 60000; mkRecipient Ref.sender 40000]
       None None Scenario.ninetyThousand [] eq_refl eq_refl
       (or_introl eq_refl)) as (Hstatus & _ & Hnodup & _).
  exact (conj Hstatus Hnodup).
Defined.

(** The second checkpoint is reached as well: the reconciled selection has
    grown and still does not cover target plus fee. *)
Example feeTooHigh_rejected :
  run Scenario.feeTooHigh
  = (Throw (ThrownStatusCode InSufficientBalanceWithTxFee),
     fullTrace Mainnet Ref.sender).
Proof. reflexivity. Qed.

(** C4, as stated, fails: what the caller catches is the status code
    itself, not a [ResponseError] that carries it. *)
Lemma C4_bare_status_code_counterexample :
  fst (run Scenario.short)
    = Throw (ThrownStatusCode InSufficientBalanceWithTxFee)
  /\ ~ exists e : ResponseError,
         fst (run Scenario.short) = Throw (ThrownResponseError e).
Proof.
  split; [reflexivity|]. intros [e He]. discriminate He.
Qed.

(** C5: a pinned output that is part of the unspent set. *)
Lemma C5_pinned_in_payment_address_witness :
  exists r,
    fst (run Scenario.pinnedOwn) = Ok r
    /\ (ordinalUtxoInPaymentAddress r = true <->
        exists u,
          In u [Ref.utxo Ref.tx1 0 30000; Scenario.ownInscription]
          /\ sameOutpoint u Scenario.ownInscription).
Proof.
  eexists. split; [reflexivity|].
  exact (C5_pinned_in_payment_address
           (Ref.env [Ref.utxo Ref.tx1 0 30000; Scenario.ownInscription]
              [Scenario.ownInscription] 1000)
           Mainnet Ref.sender [mkRecipient Ref.payee 10000] (Some "5")
           (Some Scenario.ownInscription)
           [Ref.utxo Ref.tx1 0 30000; Scenario.ownInscription]
           [Scenario.ownInscription] eq_refl eq_refl _ eq_refl).
Defined.

(** ** The fetch of the parent transactions *)

Lemma fetchParent_run (env : Env) (u : UTXO) (tr : list Event) :
  fetchParent env u tr =
  (match getTransactionHex env (txid u) with
   | Ok txHex => Ok (txid u, Buffer.from_hex txHex)
   | Throw e => Throw e
   end, tr ++ [EvGetTransactionHex (txid u)]).
Proof.
  unfold fetchParent, bind, call, ret.
  by destruct (getTransactionHex env (txid u)).
Qed.

(** One call per input, in input order, whether or not a call fails. *)
Lemma promise_all_fetch_trace (env : Env) (l : list UTXO) (tr : list Event) :
  snd (promise_all (map (fetchParent env) l) tr) = tr ++ fetchTrace l.
Proof.
  revert tr. induction l as [|u l IH]; intros tr; simpl.
  - by rewrite app_nil_r.
  - rewrite fetchParent_run.
    specialize (IH (tr ++ [EvGetTransactionHex (txid u)])).
    destruct (promise_all _ _) as [rs tr2]. simpl in *.
    by rewrite IH, <- app_assoc.
Qed.

Lemma promise_all_fetch_ok (env : Env) (l : list UTXO) (tr : list Event) :
  allFetched env l ->
  fst (promise_all (map (fetchParent env) l) tr)
  = Ok (map (fun u => (txid u, parentBytes env (txid u))) l).
Proof.
  intros Hall. revert tr.
  induction Hall as [|u l [h Hh] _ IH]; intros tr; simpl.
  - reflexivity.
  - rewrite fetchParent_run.
    specialize (IH (tr ++ [EvGetTransactionHex (txid u)])).
    destruct (promise_all _ _) as [rs tr2]. simpl in *.
    unfold parentBytes. by rewrite Hh, IH.
Qed.

Lemma fetchTransactionMap_trace (env : Env) (l : list UTXO) :
  snd (run (fetchTransactionMap env l)) = fetchTrace l.
Proof.
  unfold run, fetchTransactionMap, bind, ret.
  pose proof (promise_all_fetch_trace env l []) as Htr.
  by destruct (promise_all _ _) as [[ws|e] tr'].
Qed.

Lemma fetchTransactionMap_ok (env : Env) (l : list UTXO) :
  allFetched env l ->
  run (fetchTransactionMap env l)
  = (Ok (storeAll (map (fun u => (txid u, parentBytes env (txid u))) l)),
     fetchTrace l).
Proof.
  intros Hall. unfold run, fetchTransactionMap, bind, ret.
  pose proof (promise_all_fetch_trace env l []) as Htr.
  pose proof (promise_all_fetch_ok env l [] Hall) as Hok.
  destruct (promise_all _ _) as [r tr']. simpl in *. by subst.
Qed.

(** The join resolves only when every fetch has succeeded. *)
Lemma promise_all_fetch_inv (env : Env) (l : list UTXO) (tr : list Event)
    (ws : list (string * Buffer.t)) :
  fst (promise_all (map (fetchParent env) l) tr) = Ok ws ->
  allFetched env l.
Proof.
  revert tr ws. induction l as [|u l IH]; intros tr ws; simpl.
  - intros _. constructor.
  - rewrite fetchParent_run.
    specialize (IH (tr ++ [EvGetTransactionHex (txid u)])).
    destruct (promise_all _ _) as [rs tr2].
    destruct (getTransactionHex env (txid u)) as [h|e] eqn:Hh;
      [|discriminate].
    destruct rs as [ws'|e]; [|discriminate].
    intros _. constructor; [by exists h | by eapply IH].
Qed.

Lemma fetchTransactionMap_inv (env : Env) (l : list UTXO)
    (m : gmap string Buffer.t) :
  fst (run (fetchTransactionMap env l)) = Ok m -> allFetched env l.
Proof.
  unfold run, fetchTransactionMap, bind, ret.
  pose proof (promise_all_fetch_inv env l []) as Hinv.
  destruct (promise_all _ _) as [[ws|e] tr']; [|discriminate].
  intros _. by eapply Hinv.
Qed.

(** ** The map keyed by transaction id *)

Section TransactionMap.

Variable bytesOf : string -> Buffer.t.

Let writesOf (l : list UTXO) : list (string * Buffer.t) :=
  map (fun u => (txid u, bytesOf (txid u))) l.

Let store (m : gmap string Buffer.t) (ws : list (string * Buffer.t)) :=
  fold_left (fun m w => <[w.1 := w.2]> m) ws m.

Lemma store_lookup (l : list UTXO) (m : gmap string Buffer.t) (id : string) :
  store m (writesOf l) !! id =
  if decide (id ∈ map txid l) then Some (bytesOf id) else m !! id.
Proof.
  revert m. induction l as [|u l IH]; intros m.
  - by rewrite decide_False by apply not_elem_of_nil.
  - change (store m (writesOf (u :: l)))
      with (store (<[txid u := bytesOf (txid u)]> m) (writesOf l)).
    change (map txid (u :: l)) with (txid u :: map txid l).
    rewrite IH. destruct (decide (id ∈ map txid l)) as [Hin|Hnin].
    + by rewrite decide_True by (by right).
    + destruct (decide (id = txid u)) as [->|Hne].
      * rewrite decide_True by left. by rewrite lookup_insert_eq.
      * rewrite decide_False by (by intros [?|?]%elem_of_cons).
        by rewrite lookup_insert_ne.
Qed.

Lemma store_dom (l : list UTXO) (m : gmap string Buffer.t) :
  dom (store m (writesOf l)) = list_to_set (map txid l) ∪ dom m.
Proof.
  revert m. induction l as [|u l IH]; intros m.
  - simpl. set_solver.
  - change (store m (writesOf (u :: l)))
      with (store (<[txid u := bytesOf (txid u)]> m) (writesOf l)).
    rewrite IH, dom_insert_L. simpl. set_solver.
Qed.

(** Every selected input finds the bytes of its parent transaction. *)
Lemma storeAll_lookup (l : list UTXO) (u : UTXO) :
  u ∈ l -> storeAll (writesOf l) !! txid u = Some (bytesOf (txid u)).
Proof.
  intros Hin. unfold storeAll. fold (store ∅ (writesOf l)).
  rewrite store_lookup, decide_True; [done|].
  by apply list_elem_of_fmap_2.
Qed.

(** The map has one entry per distinct transaction id. *)
Lemma storeAll_size (l : list UTXO) :
  dom (storeAll (writesOf l)) = list_to_set (map txid l)
  /\ size (storeAll (writesOf l)) = length (distinctTxids l).
Proof.
  unfold storeAll. fold (store ∅ (writesOf l)).
  assert (dom (store ∅ (writesOf l)) = list_to_set (map txid l)) as Hdom.
  { rewrite store_dom. set_solver. }
  split; [done|].
  rewrite <- size_dom, Hdom. unfold distinctTxids.
  rewrite <- (size_list_to_set (C:=gset string) (remove_dups (map txid l)))
    by apply NoDup_remove_dups.
  f_equal. apply set_eq. intros x.
  by rewrite !elem_of_list_to_set, elem_of_remove_dups.
Qed.

(** The callbacks complete in any order: since a transaction id
    determines the bytes stored under it, the map does not depend on the
    order of the writes. *)
Lemma storeAll_completion_order (l l' : list UTXO) :
  l ≡ₚ l' -> storeAll (writesOf l) = storeAll (writesOf l').
Proof.
  intros Hperm. apply map_eq. intros id. unfold storeAll.
  fold (store ∅ (writesOf l)). fold (store ∅ (writesOf l')).
  rewrite !store_lookup.
  assert (id ∈ map txid l <-> id ∈ map txid l') as Hiff.
  { by rewrite (Permutation_map txid Hperm). }
  destruct (decide (id ∈ map txid l)), (decide (id ∈ map txid l'));
    tauto.
Qed.

End TransactionMap.

(** ** [toNumber] on integers *)

Lemma round53_small (a : Z) : 0 <= a < 2 ^ 53 -> JsNumber.round53 a = a.
Proof.
  intros [Hge Hlt]. unfold JsNumber.round53.
  assert (Z.log2 a - 52 <= 0) as Hlog.
  { destruct (Z.eq_dec a 0) as [->|Hne]; [done|].
    assert (Z.log2 a < 53) by (apply Z.log2_lt_pow2; lia). lia. }
  rewrite Z.max_l by lia.
  rewrite Z.shiftr_0_r, Z.shiftl_0_r, Z.sub_diag.
  change (2 ^ 0 <? 2 * 0) with false. change (2 * 0 =? 2 ^ 0) with false.
  simpl. apply Z.shiftl_0_r.
Qed.

Lemma round53_pos (a : Z) : 0 < a -> 0 < JsNumber.round53 a.
Proof.
  intros Hpos. unfold JsNumber.round53.
  set (e := Z.max 0 (Z.log2 a - 52)).
  assert (0 <= e) as He by lia.
  assert (e <= Z.log2 a) as Hle.
  { pose proof (Z.log2_nonneg a). lia. }
  assert (2 ^ e <= a) as Hpow.
  { pose proof (Z.log2_spec a Hpos) as [Hlo _].
    pose proof (Z.pow_le_mono_r 2 e (Z.log2 a)). lia. }
  assert (0 < 2 ^ e) as Hpe by (apply Z.pow_pos_nonneg; lia).
  assert (1 <= Z.shiftr a e) as Hq.
  { rewrite Z.shiftr_div_pow2 by done.
    apply Z.div_le_lower_bound; lia. }
  destruct (_ || _); rewrite Z.shiftl_mul_pow2 by done; nia.
Qed.

(** The sign survives the conversion: [x.toNumber() > 0] exactly when
    [x > 0]. *)
Lemma gt0_toNumber (x : Z) : JsNumber.gt0 (JsNumber.toNumber x) = (0 <? x).
Proof.
  unfold JsNumber.toNumber.
  destruct (Z.lt_trichotomy x 0) as [Hneg|[->|Hpos]].
  - pose proof (round53_pos (Z.abs x) ltac:(lia)) as Hm.
    rewrite (proj2 (Z.ltb_lt x 0)) by done.
    rewrite (proj2 (Z.ltb_ge 0 x)) by lia.
    destruct (2 ^ 1024 <=? _); [done|]. simpl.
    apply Z.ltb_ge. rewrite Z.sgn_neg by done. lia.
  - reflexivity.
  - pose proof (round53_pos (Z.abs x) ltac:(lia)) as Hm.
    rewrite (proj2 (Z.ltb_ge x 0)) by lia.
    rewrite (proj2 (Z.ltb_lt 0 x)) by done.
    destruct (2 ^ 1024 <=? _); [done|]. simpl.
    apply Z.ltb_lt. rewrite Z.sgn_pos by done. lia.
Qed.

(** Up to [2^53] in magnitude the conversion is exact. *)
Lemma toNumber_exact (x : Z) :
  Z.abs x <= 2 ^ 53 -> JsNumber.toNumber x = JsNumber.Finite x.
Proof.
  intros Hle. unfold JsNumber.toNumber.
  assert (JsNumber.round53 (Z.abs x) = Z.abs x) as ->.
  { destruct (Z.eq_dec (Z.abs x) (2 ^ 53)) as [->|Hne]; [by vm_compute|].
    apply round53_small. lia. }
  rewrite (proj2 (Z.leb_gt (2 ^ 1024) (Z.abs x))).
  - f_equal. rewrite Z.mul_comm. apply Z.abs_sgn.
  - assert (2 ^ 53 < 2 ^ 1024) by (apply Z.pow_lt_mono_r; lia). lia.
Qed.

(** From [2^53] on the rounded magnitude stays at or above [2^53]. *)
Lemma round53_large (a : Z) : 2 ^ 53 <= a -> 2 ^ 53 <= JsNumber.round53 a.
Proof.
  intros Hge. unfold JsNumber.round53.
  assert (53 <= Z.log2 a) as Hlog by (apply Z.log2_le_pow2; lia).
  rewrite Z.max_r by lia.
  set (e := Z.log2 a - 52).
  assert (0 < e) as He by lia.
  assert (0 < 2 ^ e) as Hpe by (apply Z.pow_pos_nonneg; lia).
  assert (2 ^ 52 <= Z.shiftr a e) as Hq.
  { rewrite Z.shiftr_div_pow2 by lia.
    apply Z.div_le_lower_bound; [done|].
    rewrite <- Z.pow_add_r by lia.
    replace (e + 52) with (Z.log2 a) by lia.
    apply Z.log2_spec. lia. }
  assert (2 ^ 53 <= 2 ^ 52 * 2 ^ e) as Hpow.
  { change (2 ^ 53) with (2 ^ 52 * 2 ^ 1).
    apply Z.mul_le_mono_nonneg_l; [done|].
    apply Z.pow_le_mono_r; lia. }
  destruct (_ || _); rewrite Z.shiftl_mul_pow2 by lia; nia.
Qed.

(** A conversion whose result is below [2^53] in magnitude has lost
    nothing. *)
Lemma toNumber_inv (x v : Z) :
  JsNumber.toNumber x = JsNumber.Finite v -> Z.abs v < 2 ^ 53 -> x = v.
Proof.
  unfold JsNumber.toNumber.
  destruct (2 ^ 1024 <=? _); [by destruct (x <? 0)|].
  intros [= <-] Hlt.
  destruct (Z.eq_dec x 0) as [->|Hne]; [done|].
  destruct (Z.lt_ge_cases (Z.abs x) (2 ^ 53)) as [Hsmall|Hbig].
  - rewrite round53_small by lia. lia.
  - pose proof (round53_large _ Hbig) as Hm. lia.
Qed.

(** An amount the container accepts has been converted exactly, and it
    lies within the safe integers. *)
Lemma isSatoshi_toNumber (x : Z) :
  isSatoshi (JsNumber.toNumber x) = true ->
  JsNumber.toNumber x = JsNumber.Finite x /\ 0 <= x <= SATOSHI_MAX.
Proof.
  destruct (JsNumber.toNumber x) as [v| |] eqn:Hx; simpl; [|done..].
  intros Hsat. apply andb_true_iff in Hsat as [Hlo Hhi].
  apply Z.leb_le in Hlo, Hhi.
  assert (SATOSHI_MAX < 2 ^ 53) as Hmax by (by vm_compute).
  assert (x = v) as -> by (apply toNumber_inv; [done | lia]).
  done.
Qed.

Lemma SATOSHI_MAX_safe : SATOSHI_MAX <= 2 ^ 53 - 1.
Proof. by vm_compute. Qed.

(** The definition agrees with the Standard Library's specification of
    binary64 rounding on integers around every boundary. *)
Example toNumber_agrees_with_binary64 :
  Forall (fun x =>
            JsNumber.of_spec_float (JsNumber.binary64_of_Z x)
            = Some (JsNumber.toNumber x))
    [0; 1; -1; 21 * 10 ^ 14; 2 ^ 53 - 1; 2 ^ 53; 2 ^ 53 + 1; 2 ^ 53 + 2;
     2 ^ 53 + 3; - (2 ^ 53 + 3); 2 ^ 54 + 2; 2 ^ 54 + 5; 2 ^ 54 + 6;
     2 ^ 54 + 7; 2 ^ 200 + 2 ^ 147; 2 ^ 200 + 2 ^ 147 + 1;
     2 ^ 200 + 2 ^ 147 + 2 ^ 148; 2 ^ 1024 - 2 ^ 971;
     2 ^ 1024 - 2 ^ 970 - 1; 2 ^ 1024 - 2 ^ 970; 2 ^ 1024; - 2 ^ 1024].
Proof. repeat constructor. Qed.

(** ** The assemblers, step by step *)

(** Once the body of a loop has thrown, the loop is left. *)
Lemma forOf_thrown {A S} (body : S -> A -> result S) (l : list A)
    (e : Thrown) :
  fold_left (fun acc a => andThen acc (fun s => body s a)) l (Throw e)
  = Throw e.
Proof. by induction l. Qed.

Lemma forOf_cons {A S} (a : A) (l : list A) (body : S -> A -> result S)
    (s : S) :
  forOf (a :: l) body s = andThen (body s a) (forOf l body).
Proof.
  unfold forOf. simpl. destruct (body s a); simpl; [done|].
  apply forOf_thrown.
Qed.

Lemma forOf_ext {A S} (l : list A) (body body' : S -> A -> result S) (s : S) :
  (forall s a, a ∈ l -> body s a = body' s a) ->
  forOf l body s = forOf l body' s.
Proof.
  revert s. induction l as [|a l IH]; intros s Hext; [done|].
  rewrite !forOf_cons, Hext by left.
  destruct (body' s a); simpl; [|done].
  apply IH. intros s' a' Ha'. apply Hext. by right.
Qed.

Section AssemblerFacts.

Context {Bip32Derivation TapBip32Derivation : Type}.

Variable lib : PsbtLib Bip32Derivation TapBip32Derivation.

Implicit Types (psbt : Psbt Bip32Derivation TapBip32Derivation).
Implicit Types (i : PsbtInput Bip32Derivation TapBip32Derivation).

(** A loop that adds one input per selected output: when no input is
    refused, the inputs are appended in the order of the selection. *)
Lemma forOf_addInput_ok
    (input : UTXO -> PsbtInput Bip32Derivation TapBip32Derivation)
    (l : list UTXO) psbt psbt' :
  forOf l (fun psbt u => addInput lib psbt (input u)) psbt = Ok psbt' ->
  psbt'
  = mkPsbt (psbt_network psbt) (inputs psbt ++ map input l) (outputs psbt).
Proof.
  revert psbt. induction l as [|u l IH]; intros psbt Hok.
  - injection Hok as <-. simpl. rewrite app_nil_r. by destruct psbt.
  - rewrite forOf_cons in Hok. unfold addInput at 1 in Hok.
    destruct (inputProblem lib psbt (input u)); [discriminate|].
    apply IH in Hok. subst psbt'. simpl. by rewrite <- app_assoc.
Qed.

(** An output that has been added carries an amount in the range of
    [Satoshi]. *)
Lemma addOutput_ok psbt (o : PsbtOutput) psbt' :
  addOutput lib psbt o = Ok psbt' ->
  psbt' = mkPsbt (psbt_network psbt) (inputs psbt) (outputs psbt ++ [o])
  /\ isSatoshi (o_value o) = true.
Proof.
  unfold addOutput.
  destruct (outputProblem lib psbt o); [discriminate|].
  destruct (isSatoshi (o_value o)); [|discriminate].
  by intros [= <-].
Qed.

Lemma addOutputs_ok psbt (os : list PsbtOutput) psbt' :
  addOutputs lib psbt os = Ok psbt' ->
  psbt' = mkPsbt (psbt_network psbt) (inputs psbt) (outputs psbt ++ os)
  /\ Forall (fun o => isSatoshi (o_value o) = true) os.
Proof.
  unfold addOutputs. revert psbt.
  induction os as [|o os IH]; intros psbt Hok.
  - injection Hok as <-. rewrite app_nil_r. by destruct psbt.
  - rewrite forOf_cons in Hok.
    destruct (addOutput lib psbt o) as [psbt1|e] eqn:Ho; [|discriminate].
    apply addOutput_ok in Ho as [-> Hsat].
    apply IH in Hok as [-> Hos]. simpl. rewrite <- app_assoc.
    split; [done | by constructor].
Qed.

(** The shared tail leaves the inputs alone and appends the recipient
    outputs, then the change output when the change is positive. *)
Lemma addRecipientsAndChange_ok psbt recipients changeAddress changeValue
    psbt' :
  addRecipientsAndChange lib psbt recipients changeAddress changeValue
  = Ok psbt' ->
  psbt'
  = mkPsbt (psbt_network psbt) (inputs psbt)
      (outputs psbt ++ recipientOutputs recipients
         ++ changeOutputs changeAddress changeValue)
  /\ Forall (fun o => isSatoshi (o_value o) = true)
       (recipientOutputs recipients
          ++ changeOutputs changeAddress changeValue).
Proof.
  unfold addRecipientsAndChange, changeOutputs.
  rewrite gt0_toNumber.
  destruct (addOutputs lib psbt _) as [psbt1|e] eqn:Hos; [|discriminate].
  apply addOutputs_ok in Hos as [-> Hrs]. simpl.
  fold (recipientOutputs recipients) in *.
  destruct (0 <? changeValue).
  - intros Ho. apply addOutput_ok in Ho as [-> Hsat]. simpl in *.
    rewrite <- app_assoc. split; [done|].
    apply Forall_app. split; [done | by constructor].
  - intros [= <-]. by rewrite app_nil_r.
Qed.

Variables (env : Env) (network : NetworkType).
Variables (recipients : list Recipient) (changeAddress : string).
Variables (changeValue : Z) (inputUTXOs : list UTXO).
Variable inputDerivation : option (list Bip32Derivation).
Variable witnessScript : Buffer.t.
Variable taprootInputDerivation : option (list TapBip32Derivation).
Variables taprootScript internalKey : Buffer.t.

(** The map the fetch phase leaves behind when every fetch succeeds. *)
Let transactionMap : gmap string Buffer.t :=
  storeAll (map (fun u => (txid u, parentBytes env (txid u))) inputUTXOs).

Let emitted : list PsbtOutput :=
  recipientOutputs recipients ++ changeOutputs changeAddress changeValue.

(** What a completed build holds. *)
Lemma build_ok
    (input : UTXO -> PsbtInput Bip32Derivation TapBip32Derivation) psbt :
  build lib network recipients changeAddress changeValue inputUTXOs input
  = Ok psbt ->
  psbt = mkPsbt (btcNetworkOf network) (map input inputUTXOs) emitted
  /\ Forall (fun o => isSatoshi (o_value o) = true) emitted.
Proof.
  unfold build.
  destruct (forOf inputUTXOs _ _) as [psbt1|e] eqn:Hins; [|discriminate].
  apply forOf_addInput_ok in Hins as ->. simpl.
  intros Hok. by apply addRecipientsAndChange_ok in Hok as [-> Hsat].
Qed.

Lemma build_ext
    (input input' : UTXO -> PsbtInput Bip32Derivation TapBip32Derivation) :
  (forall u, u ∈ inputUTXOs -> input u = input' u) ->
  build lib network recipients changeAddress changeValue inputUTXOs input
  = build lib network recipients changeAddress changeValue inputUTXOs input'.
Proof.
  intros Hext. unfold build. f_equal.
  apply forOf_ext. intros s u Hu. by rewrite Hext.
Qed.

(** The taproot assembler calls no collaborator. *)
Lemma createTaprootPsbt_run :
  run (createTaprootPsbt lib network recipients changeAddress changeValue
         inputUTXOs taprootInputDerivation taprootScript internalKey)
  = (build lib network recipients changeAddress changeValue inputUTXOs
       (taprootInput taprootInputDerivation taprootScript internalKey), []).
Proof. reflexivity. Qed.

(** The segwit assembler makes its fetches whether or not they succeed. *)
Lemma createNativeSegwitPsbt_trace :
  snd (run (createNativeSegwitPsbt lib env network recipients changeAddress
              changeValue inputUTXOs inputDerivation witnessScript))
  = fetchTrace inputUTXOs.
Proof.
  pose proof (fetchTransactionMap_trace env inputUTXOs) as Htr.
  unfold run, createNativeSegwitPsbt, bind, lift in *.
  by destruct (fetchTransactionMap env inputUTXOs []) as [[m|e] tr].
Qed.

Lemma createNativeSegwitPsbt_run :
  allFetched env inputUTXOs ->
  run (createNativeSegwitPsbt lib env network recipients changeAddress
         changeValue inputUTXOs inputDerivation witnessScript)
  = (build lib network recipients changeAddress changeValue inputUTXOs
       (segwitInput transactionMap inputDerivation witnessScript),
     fetchTrace inputUTXOs).
Proof.
  intros Hall. pose proof (fetchTransactionMap_ok env inputUTXOs Hall) as Hm.
  unfold run, createNativeSegwitPsbt, bind, lift in *. by rewrite Hm.
Qed.

(** The input the mixed assembler builds for a selected output. *)
Let mixedInput (u : UTXO) : PsbtInput Bip32Derivation TapBip32Derivation :=
  if String.eqb (address u) changeAddress
  then segwitInput transactionMap inputDerivation witnessScript u
  else taprootInput taprootInputDerivation taprootScript internalKey u.

Lemma createMixedPsbt_trace :
  snd (run (createMixedPsbt lib env network recipients changeAddress
              changeValue inputUTXOs inputDerivation witnessScript
              taprootInputDerivation taprootScript internalKey))
  = fetchTrace inputUTXOs.
Proof.
  pose proof (fetchTransactionMap_trace env inputUTXOs) as Htr.
  unfold run, createMixedPsbt, bind, lift in *.
  by destruct (fetchTransactionMap env inputUTXOs []) as [[m|e] tr].
Qed.

Lemma createMixedPsbt_run :
  allFetched env inputUTXOs ->
  run (createMixedPsbt lib env network recipients changeAddress changeValue
         inputUTXOs inputDerivation witnessScript taprootInputDerivation
         taprootScript internalKey)
  = (build lib network recipients changeAddress changeValue inputUTXOs
       mixedInput,
     fetchTrace inputUTXOs).
Proof.
  intros Hall. pose proof (fetchTransactionMap_ok env inputUTXOs Hall) as Hm.
  unfold run, createMixedPsbt, bind, lift in *. rewrite Hm.
  f_equal. unfold build. f_equal.
  apply forOf_ext. intros psbt u _. subst mixedInput. simpl.
  by destruct (String.eqb (address u) changeAddress).
Qed.

(** The two fetching assemblers return a container only when every
    fetch has succeeded. *)
Lemma createNativeSegwitPsbt_inv psbt :
  fst (run (createNativeSegwitPsbt lib env network recipients changeAddress
              changeValue inputUTXOs inputDerivation witnessScript))
  = Ok psbt ->
  allFetched env inputUTXOs.
Proof.
  pose proof (fetchTransactionMap_inv env inputUTXOs) as Hinv.
  unfold run, createNativeSegwitPsbt, bind, lift in *.
  destruct (fetchTransactionMap env inputUTXOs []) as [[m|e] tr];
    [|discriminate].
  intros _. by eapply Hinv.
Qed.

Lemma createMixedPsbt_inv psbt :
  fst (run (createMixedPsbt lib env network recipients changeAddress
              changeValue inputUTXOs inputDerivation witnessScript
              taprootInputDerivation taprootScript internalKey))
  = Ok psbt ->
  allFetched env inputUTXOs.
Proof.
  pose proof (fetchTransactionMap_inv env inputUTXOs) as Hinv.
  unfold run, createMixedPsbt, bind, lift in *.
  destruct (fetchTransactionMap env inputUTXOs []) as [[m|e] tr];
    [|discriminate].
  intros _. by eapply Hinv.
Qed.

End AssemblerFacts.

(** ** The claims on the assemblers *)

Lemma countEvents_fetchTrace (l : list UTXO) :
  countEvents isTransactionHexFetch (fetchTrace l) = length l.
Proof.
  unfold countEvents, fetchTrace.
  induction l as [|u l IH]; simpl; [done | by rewrite IH].
Qed.

Lemma distinctTxids_length (l : list UTXO) :
  (length (distinctTxids l) <= length l)%nat.
Proof.
  unfold distinctTxids. induction l as [|u l IH]; simpl; [done|].
  destruct (decide_rel elem_of (txid u) (map txid l)); simpl; lia.
Qed.

Lemma Forall2_map_r {A B} (P : A -> B -> Prop) (f : A -> B) (l : list A) :
  (forall x, x ∈ l -> P x (f x)) -> Forall2 P l (map f l).
Proof.
  induction l as [|x l IH]; intros HP; simpl; constructor.
  - apply HP. left.
  - apply IH. intros y Hy. apply HP. by right.
Qed.

Section AssemblerClaims.

Context {Bip32Derivation TapBip32Derivation : Type}.

Variable lib : PsbtLib Bip32Derivation TapBip32Derivation.
Variables (env : Env) (network : NetworkType).
Variables (recipients : list Recipient) (changeAddress : string).
Variables (changeValue : Z) (inputUTXOs : list UTXO).
Variable inputDerivation : option (list Bip32Derivation).
Variable witnessScript : Buffer.t.
Variable taprootInputDerivation : option (list TapBip32Derivation).
Variables taprootScript internalKey : Buffer.t.

Let segwit : M (Psbt Bip32Derivation TapBip32Derivation) :=
  createNativeSegwitPsbt lib env network recipients changeAddress changeValue
    inputUTXOs inputDerivation witnessScript.

Let taproot : M (Psbt Bip32Derivation TapBip32Derivation) :=
  createTaprootPsbt lib network recipients changeAddress changeValue
    inputUTXOs taprootInputDerivation taprootScript internalKey.

Let mixed : M (Psbt Bip32Derivation TapBip32Derivation) :=
  createMixedPsbt lib env network recipients changeAddress changeValue
    inputUTXOs inputDerivation witnessScript taprootInputDerivation
    taprootScript internalKey.

(** C3 (amended).  The segwit assembler performs exactly N raw-transaction
    fetches for a selection of N inputs, one per input and in input order,
    whether or not transaction ids repeat; nothing de-duplicates the
    fetches.  What is keyed by transaction id is the store: when every
    fetch succeeds the map holds exactly K entries, one per distinct
    transaction id, and K <= N. *)
Theorem C3_one_fetch_per_selected_input :
  snd (run segwit) = fetchTrace inputUTXOs
  /\ countEvents isTransactionHexFetch (snd (run segwit)) = length inputUTXOs
  /\ (allFetched env inputUTXOs ->
      exists transactionMap,
        fst (run (fetchTransactionMap env inputUTXOs)) = Ok transactionMap
        /\ dom transactionMap = list_to_set (map txid inputUTXOs)
        /\ size transactionMap = length (distinctTxids inputUTXOs))
  /\ (length (distinctTxids inputUTXOs) <= length inputUTXOs)%nat.
Proof.
  subst segwit. rewrite createNativeSegwitPsbt_trace.
  split; [done|]. split; [apply countEvents_fetchTrace|].
  split; [|apply distinctTxids_length].
  intros Hall. eexists. rewrite fetchTransactionMap_ok by done.
  split; [reflexivity|]. apply (storeAll_size (parentBytes env)).
Qed.

(** A container returned by one of the three assemblers. *)
Let returned (psbt : Psbt Bip32Derivation TapBip32Derivation) : Prop :=
  fst (run segwit) = Ok psbt \/ fst (run taproot) = Ok psbt
  \/ fst (run mixed) = Ok psbt.

(** A returned container is a completed build: its network, its inputs
    (one literal per selected output, of one of the two kinds) and its
    outputs, whose amounts the container has accepted. *)
Lemma returned_built psbt :
  returned psbt ->
  exists input,
    psbt
    = mkPsbt (btcNetworkOf network) (map input inputUTXOs)
        (recipientOutputs recipients
           ++ changeOutputs changeAddress changeValue)
    /\ Forall (fun o => isSatoshi (o_value o) = true)
         (recipientOutputs recipients
            ++ changeOutputs changeAddress changeValue)
    /\ forall u,
         (exists transactionMap,
            input u = segwitInput transactionMap inputDerivation
                        witnessScript u)
         \/ input u = taprootInput taprootInputDerivation taprootScript
                        internalKey u.
Proof.
  subst returned segwit taproot mixed. cbv beta.
  intros [Hok|[Hok|Hok]].
  - pose proof (createNativeSegwitPsbt_inv _ _ _ _ _ _ _ _ _ _ Hok) as Hall.
    rewrite createNativeSegwitPsbt_run in Hok by done.
    apply build_ok in Hok as [-> Hsat].
    eexists. split; [reflexivity|]. split; [done|].
    intros u. left. by eexists.
  - rewrite createTaprootPsbt_run in Hok.
    apply build_ok in Hok as [-> Hsat].
    eexists. split; [reflexivity|]. split; [done|].
    intros u. by right.
  - pose proof (createMixedPsbt_inv _ _ _ _ _ _ _ _ _ _ _ _ _ Hok) as Hall.
    rewrite createMixedPsbt_run in Hok by done.
    apply build_ok in Hok as [-> Hsat].
    eexists. split; [reflexivity|]. split; [done|].
    intros u. simpl.
    destruct (String.eqb (address u) changeAddress);
      [left; by eexists | by right].
Qed.

Lemma returned_outputs psbt :
  returned psbt ->
  outputs psbt
  = recipientOutputs recipients ++ changeOutputs changeAddress changeValue.
Proof.
  intros Hret. by destruct (returned_built psbt Hret) as (input & -> & _).
Qed.

Lemma returned_inputs psbt :
  returned psbt ->
  exists input,
    inputs psbt = map input inputUTXOs
    /\ forall u,
         (exists transactionMap,
            input u = segwitInput transactionMap inputDerivation
                        witnessScript u)
         \/ input u = taprootInput taprootInputDerivation taprootScript
                        internalKey u.
Proof.
  intros Hret.
  destruct (returned_built psbt Hret) as (input & -> & _ & Hinput).
  by exists input.
Qed.

(** C6.  In every assembly variant the emitted outputs are exactly one
    output per recipient, in recipient order, followed by exactly one
    change output to the change address when [changeValue > 0], and by no
    change output when [changeValue <= 0]: such are the outputs of every
    container an assembler returns. *)
Theorem C6_recipient_outputs_then_change :
  forall psbt,
    returned psbt ->
    outputs psbt
    = recipientOutputs recipients ++ changeOutputs changeAddress changeValue
    /\ map o_address (outputs psbt)
       = map r_address recipients
           ++ (if 0 <? changeValue then [changeAddress] else [])
    /\ (changeValue <= 0 -> length (outputs psbt) = length recipients)
    /\ (0 < changeValue -> length (outputs psbt) = S (length recipients)).
Proof.
  intros psbt Hret. rewrite (returned_outputs psbt Hret).
  assert (map o_address (recipientOutputs recipients)
          = map r_address recipients) as Haddr.
  { unfold recipientOutputs. rewrite map_map. by apply map_ext. }
  assert (length (recipientOutputs recipients) = length recipients) as Hlen.
  { unfold recipientOutputs. apply length_map. }
  split; [reflexivity|]. unfold changeOutputs.
  rewrite map_app, length_app, Haddr, Hlen.
  destruct (Z.ltb_spec 0 changeValue); simpl; (split; [done|]); split; lia.
Qed.

(** C7.  Every input added by any of the three assembly variants carries
    [sequence = 0xFFFFFFFD], for every input list and whichever branch
    builds the input: in every container an assembler returns there is one
    input per selected output, and each of them has this sequence
    number. *)
Theorem C7_every_input_is_replaceable :
  forall psbt,
    returned psbt ->
    length (inputs psbt) = length inputUTXOs
    /\ Forall replaceable (inputs psbt).
Proof.
  intros psbt Hret.
  destruct (returned_inputs psbt Hret) as (input & -> & Hinput).
  split; [apply length_map|].
  apply List.Forall_map, List.Forall_forall. intros u _.
  by destruct (Hinput u) as [[m ->]| ->].
Qed.

(** C8.  In a container the mixed assembler returns, every selected input
    whose owning address equals the change address is built the segwit way
    ([witnessUtxo], [nonWitnessUtxo], [bip32Derivation]), every other
    input the taproot way ([witnessUtxo], [tapBip32Derivation],
    [tapInternalKey]), input by input in the order of the selection; the
    container holds as many inputs as were selected. *)
Theorem C8_mixed_classification :
  forall psbt,
    fst (run mixed) = Ok psbt ->
    length (inputs psbt) = length inputUTXOs
    /\ Forall2
         (fun u i =>
            (address u = changeAddress ->
             segwitStyle env inputDerivation witnessScript u i)
            /\ (address u <> changeAddress ->
                taprootStyle taprootInputDerivation taprootScript
                  internalKey u i))
         inputUTXOs (inputs psbt).
Proof.
  subst mixed. intros psbt Hok.
  pose proof (createMixedPsbt_inv _ _ _ _ _ _ _ _ _ _ _ _ _ Hok) as Hall.
  rewrite createMixedPsbt_run in Hok by done.
  apply build_ok in Hok as [-> _].
  simpl. split; [apply length_map|].
  apply Forall2_map_r. intros u Hu.
  destruct (String.eqb (address u) changeAddress) eqn:Heq.
  - apply String.eqb_eq in Heq. split; [intros _|done].
    unfold segwitStyle, segwitInput. simpl.
    rewrite (storeAll_lookup (parentBytes env)) by done. done.
  - apply String.eqb_neq in Heq. split; [done|intros _].
    by unfold taprootStyle, taprootInput.
Qed.

(** C10.  Every assembly variant passes each output amount through
    [toNumber()]: in a container an assembler returns, the value of a
    recipient output is [amountSats.toNumber()], the change output carries
    [changeValue.toNumber()], and the change output is present exactly
    when [changeValue.toNumber() > 0], a test on the converted number.
    The container accepts a converted amount only in the range of
    [Satoshi], so that every amount it holds is the exact amount and
    does not exceed [2^53 - 1]: no output carries an amount beyond the
    safe integers, exact or not. *)
Theorem C10_amounts_through_toNumber :
  forall psbt,
    returned psbt ->
    outputs psbt
    = map (fun r => mkPsbtOutput (r_address r)
                      (JsNumber.toNumber (amountSats r)))
          recipients
      ++ (if JsNumber.gt0 (JsNumber.toNumber changeValue)
          then [mkPsbtOutput changeAddress (JsNumber.toNumber changeValue)]
          else [])
    /\ Forall (fun r =>
                 JsNumber.toNumber (amountSats r)
                 = JsNumber.Finite (amountSats r)
                 /\ 0 <= amountSats r <= 2 ^ 53 - 1)
         recipients
    /\ (JsNumber.gt0 (JsNumber.toNumber changeValue) = true ->
        JsNumber.toNumber changeValue = JsNumber.Finite changeValue
        /\ 0 < changeValue <= 2 ^ 53 - 1).
Proof.
  intros psbt Hret.
  destruct (returned_built psbt Hret) as (input & -> & Hsat & _).
  pose proof SATOSHI_MAX_safe as Hmax.
  apply Forall_app in Hsat as [Hrs Hch].
  split; [simpl; by rewrite gt0_toNumber|]. split.
  - unfold recipientOutputs in Hrs. rewrite List.Forall_map in Hrs.
    eapply List.Forall_impl; [|exact Hrs].
    intros r Hr. simpl in Hr.
    apply isSatoshi_toNumber in Hr as [Hr ?]. split; [done | lia].
  - rewrite gt0_toNumber. intros Hpos. unfold changeOutputs in Hch.
    rewrite Hpos in Hch. apply Forall_inv in Hch. simpl in Hch.
    apply isSatoshi_toNumber in Hch as [Hc ?].
    apply Z.ltb_lt in Hpos. split; [done | lia].
Qed.

End AssemblerClaims.

(** The parent transactions of the scenarios are served. *)
Lemma siblings_allFetched (unspent marked : list UTXO) (flatFee : Z) :
  allFetched (Ref.env unspent marked flatFee) Scenario.siblings.
Proof. repeat constructor; by eexists. Qed.

Lemma mixedSelection_allFetched (unspent marked : list UTXO) (flatFee : Z) :
  allFetched (Ref.env unspent marked flatFee) Scenario.mixedSelection.
Proof. repeat constructor; by eexists. Qed.

(** C3: the mixed selection refers to two parent transactions through
    three inputs; three fetches are made and two entries stored. *)
Lemma C3_one_fetch_per_selected_input_witness :
  countEvents isTransactionHexFetch (snd (run Scenario.segwitRun)) = 2%nat
  /\ exists transactionMap,
       fst (run (fetchTransactionMap (Ref.env [] [] 0)
                   Scenario.mixedSelection)) = Ok transactionMap
       /\ size transactionMap = 2%nat.
Proof.
  split.
  - exact (proj1 (proj2
      (C3_one_fetch_per_selected_input Ref.psbtLib
         (Ref.env [] [] 0) Mainnet [mkRecipient Ref.payee 50000] Ref.sender
         18500 Scenario.siblings Scenario.segwitDerivation
         Scenario.witnessScript))).
  - destruct (proj1 (proj2 (proj2
      (C3_one_fetch_per_selected_input Ref.psbtLib
         (Ref.env [] [] 0) Mainnet [mkRecipient Ref.payee 50000] Ref.sender
         18500 Scenario.mixedSelection Scenario.segwitDerivation
         Scenario.witnessScript)))
      (mixedSelection_allFetched [] [] 0))
      as (m & Hm & _ & Hsize).
    exists m. split; [exact Hm | exact Hsize].
Defined.

(** C3, as stated, fails: two selected outputs of one parent transaction
    (N = 2, K = 1) cause two fetches of that transaction, not one. *)
Lemma C3_sibling_outputs_counterexample :
  length Scenario.siblings = 2%nat
  /\ length (distinctTxids Scenario.siblings) = 1%nat
  /\ snd (run Scenario.segwitRun)
     = [EvGetTransactionHex Ref.tx1; EvGetTransactionHex Ref.tx1]
  /\ countEvents isTransactionHexFetch (snd (run Scenario.segwitRun))
     = 2%nat.
Proof. repeat split; reflexivity. Qed.

(** C6: the mixed scenario, with a change of 18500: two recipient outputs
    and the change output, in this order. *)
Lemma C6_recipient_outputs_then_change_witness :
  exists psbt,
    fst (run Scenario.mixedRun) = Ok psbt
    /\ map o_address (outputs psbt)
       = [Ref.payee; Ref.taprootAddress; Ref.sender].
Proof.
  eexists. split; [reflexivity|].
  exact (proj1 (proj2
    (C6_recipient_outputs_then_change Ref.psbtLib (Ref.env [] [] 0) Mainnet
       Scenario.mixedRecipients Ref.sender 18500 Scenario.mixedSelection
       Scenario.segwitDerivation Scenario.witnessScript
       Scenario.taprootDerivation Scenario.taprootScript
       Scenario.internalKey
       _ (or_intror (or_intror eq_refl))))).
Defined.

(** C7: the three inputs of the mixed scenario. *)
Lemma C7_every_input_is_replaceable_witness :
  exists psbt,
    fst (run Scenario.mixedRun) = Ok psbt
    /\ length (inputs psbt) = 3%nat
    /\ Forall (fun i => sequence i = 4294967293) (inputs psbt).
Proof.
  eexists. split; [reflexivity|].
  exact
    (C7_every_input_is_replaceable Ref.psbtLib (Ref.env [] [] 0) Mainnet
       Scenario.mixedRecipients Ref.sender 18500 Scenario.mixedSelection
       Scenario.segwitDerivation Scenario.witnessScript
       Scenario.taprootDerivation Scenario.taprootScript
       Scenario.internalKey
       _ (or_intror (or_intror eq_refl))).
Defined.

(** C8: the mixed scenario: segwit, taproot, segwit. *)
Lemma C8_mixed_classification_witness :
  exists psbt,
    fst (run Scenario.mixedRun) = Ok psbt
    /\ length (inputs psbt) = 3%nat
    /\ Forall2
         (fun u i =>
            (address u = Ref.sender ->
             segwitStyle (Ref.env [] [] 0) Scenario.segwitDerivation
               Scenario.witnessScript u i)
            /\ (address u <> Ref.sender ->
                taprootStyle Scenario.taprootDerivation
                  Scenario.taprootScript Scenario.internalKey u i))
         Scenario.mixedSelection (inputs psbt).
Proof.
  eexists. split; [reflexivity|].
  exact
    (C8_mixed_classification Ref.psbtLib (Ref.env [] [] 0) Mainnet
       Scenario.mixedRecipients Ref.sender 18500 Scenario.mixedSelection
       Scenario.segwitDerivation Scenario.witnessScript
       Scenario.taprootDerivation Scenario.taprootScript
       Scenario.internalKey
       _ eq_refl).
Defined.

Example mixedRun_inputs :
  exists psbt,
    fst (run Scenario.mixedRun) = Ok psbt
    /\ map nonWitnessUtxo (inputs psbt)
       = [Some (Buffer.from_hex Ref.raw1); None;
          Some (Buffer.from_hex Ref.raw1)]
    /\ map tapInternalKey (inputs psbt)
       = [None; Some Scenario.internalKey; None].
Proof. eexists. repeat split; reflexivity. Qed.

(** C10: the mixed scenario: the three amounts are held exactly. *)
Lemma C10_amounts_through_toNumber_witness :
  exists psbt,
    fst (run Scenario.mixedRun) = Ok psbt
    /\ map o_value (outputs psbt)
       = [JsNumber.Finite 50000; JsNumber.Finite 10000;
          JsNumber.Finite 18500].
Proof.
  eexists. split; [reflexivity|].
  exact
    (f_equal (map o_value)
       (proj1
          (C10_amounts_through_toNumber Ref.psbtLib (Ref.env [] [] 0)
             Mainnet Scenario.mixedRecipients Ref.sender 18500
             Scenario.mixedSelection Scenario.segwitDerivation
             Scenario.witnessScript Scenario.taprootDerivation
             Scenario.taprootScript Scenario.internalKey
             _ (or_intror (or_intror eq_refl))))).
Defined.

(** The conversion itself is exact on the safe integers and rounds
    beyond them; an amount of [2^53] satoshis, exact as a double, is
    refused by the container and no container is returned. *)
Example toNumber_beyond_safe_integers :
  JsNumber.toNumber (2 ^ 53 - 1) = JsNumber.Finite (2 ^ 53 - 1)
  /\ JsNumber.toNumber (2 ^ 53 + 1) = JsNumber.Finite (2 ^ 53)
  /\ run Scenario.largeAmountRun = (Throw notSatoshi, []).
Proof. repeat split; reflexivity. Qed.

(** The reference container refuses a segwit input without derivation
    records, and an outpoint added twice. *)
Example noDerivationRun_refused :
  fst (run Scenario.noDerivationRun)
  = Throw (ThrownOther "Data for input key bip32Derivation is incorrect").
Proof. reflexivity. Qed.

Example twiceRun_refused :
  fst (run Scenario.twiceRun) = Throw (ThrownOther "Duplicate input detected.").
Proof. reflexivity. Qed.

(** ** The signature patcher *)

Lemma from_hex_toString_hex (b : Buffer.t) :
  Buffer.from_hex (Buffer.toString_hex b) = b.
Proof.
  induction b as [|x b IH]; simpl; [done|].
  rewrite IH. by destruct x.
Qed.

Section StacksClaims.

Context {lib : StacksLib}.
Variable fns : StacksFunctions lib.

(** C9.  For a deserializable transaction and a raw signature that the
    encoder accepts, [addSignatureToStxTransaction] returns the
    deserialized transaction whose single-signature slot reads back as the
    encoding of the hexadecimal form of the raw signature, every other
    component being as deserialized. *)
Theorem C9_signature_round_trip
    (transaction : string + Buffer.t) (signatureVRS : Buffer.t)
    (tx : StacksTransaction lib) (encoded : MessageSignature lib) :
  deserializeTransaction fns transaction = Ok tx ->
  createMessageSignature fns (Buffer.toString_hex signatureVRS) = Ok encoded ->
  exists tx',
    addSignatureToStxTransaction fns transaction signatureVRS = Ok tx'
    /\ signature (spendingCondition (auth tx')) = Some encoded
    /\ conditionFields (spendingCondition (auth tx'))
       = conditionFields (spendingCondition (auth tx))
    /\ authFields (auth tx') = authFields (auth tx)
    /\ txFields tx' = txFields tx.
Proof.
  intros Htx Hsig. unfold addSignatureToStxTransaction.
  rewrite Htx, Hsig. eexists. split; [reflexivity|]. by simpl.
Qed.

(** A failure of either imported function is the failure of the call. *)
Lemma addSignatureToStxTransaction_fails
    (transaction : string + Buffer.t) (signatureVRS : Buffer.t) (e : Thrown) :
  deserializeTransaction fns transaction = Throw e
  \/ ((exists tx, deserializeTransaction fns transaction = Ok tx)
      /\ createMessageSignature fns (Buffer.toString_hex signatureVRS)
         = Throw e) ->
  addSignatureToStxTransaction fns transaction signatureVRS = Throw e.
Proof.
  unfold addSignatureToStxTransaction.
  intros [->|[[tx ->] ->]]; reflexivity.
Qed.

End StacksClaims.

(** C9: a signature of 65 bytes patched into an unsigned transaction. *)
Lemma C9_signature_round_trip_witness :
  exists tx',
    addSignatureToStxTransaction Ref.stacksFunctions (inl "80800000")
      Ref.signatureVRS = Ok tx'
    /\ signature (spendingCondition (auth tx'))
       = Some (Buffer.toString_hex Ref.signatureVRS)
    /\ txFields tx' = "80800000".
Proof.
  destruct
    (C9_signature_round_trip Ref.stacksFunctions (inl "80800000")
       Ref.signatureVRS (Ref.unsignedTx "80800000")
       (Buffer.toString_hex Ref.signatureVRS) eq_refl eq_refl)
    as (tx' & Hrun & Hsig & _ & _ & Hbody).
  exists tx'. exact (conj Hrun (conj Hsig Hbody)).
Defined.

(* ===================================================================== *)
(** * Further properties of [getTransactionData] *)
(* ===================================================================== *)

Section Calls.

Variable env : Env.
Variables (network : NetworkType) (senderAddress : string).
Variables (recipients : list Recipient) (feeRateInput : option string).
Variable ordinalUtxo : option UTXO.

Let outcome :=
  run (getTransactionData env network senderAddress recipients feeRateInput
         ordinalUtxo).

Lemma getTransactionData_unspent_fails (e : Thrown) :
  getUnspentUtxos env senderAddress = Throw e ->
  outcome = (Throw e, gatherTrace network senderAddress).
Proof.
  intros He. subst outcome.
  unfold run, getTransactionData, bind, promise_all2, call. rewrite He.
  by destruct (getOrdinalsUtxos env network senderAddress).
Qed.

Lemma getTransactionData_marked_fails (unspent : list UTXO) (e : Thrown) :
  getUnspentUtxos env senderAddress = Ok unspent ->
  getOrdinalsUtxos env network senderAddress = Throw e ->
  outcome = (Throw e, gatherTrace network senderAddress).
Proof.
  intros Hu He. subst outcome.
  unfold run, getTransactionData, bind, promise_all2, call.
  by rewrite Hu, He.
Qed.

(** A call that returns has gathered both sets. *)
Lemma getTransactionData_returns_gathered (r : TransactionData) :
  fst outcome = Ok r ->
  exists unspent marked,
    getUnspentUtxos env senderAddress = Ok unspent
    /\ getOrdinalsUtxos env network senderAddress = Ok marked.
Proof.
  intros Hok.
  destruct (getUnspentUtxos env senderAddress) as [unspent|e] eqn:Hu.
  2: { rewrite (getTransactionData_unspent_fails e Hu) in Hok.
       discriminate. }
  destruct (getOrdinalsUtxos env network senderAddress) as [marked|e] eqn:Hm.
  2: { rewrite (getTransactionData_marked_fails unspent e Hu Hm) in Hok.
       discriminate. }
  by exists unspent, marked.
Qed.

(** The traces a run can leave. *)
Lemma getTransactionData_traces :
  snd outcome = gatherTrace network senderAddress
  \/ snd outcome
     = gatherTrace network senderAddress ++ [EvFetchBtcFeeRate network]
  \/ snd outcome = fullTrace network senderAddress.
Proof.
  destruct (getUnspentUtxos env senderAddress) as [unspent|e] eqn:Hu.
  2: { left. by rewrite (getTransactionData_unspent_fails e). }
  destruct (getOrdinalsUtxos env network senderAddress) as [marked|e] eqn:Hm.
  2: { left. by rewrite (getTransactionData_marked_fails unspent e). }
  set (candidates := filterUtxos env unspent marked).
  set (selected :=
         provisional env recipients feeRateInput candidates ordinalUtxo).
  destruct (Z.lt_ge_cases (sumUnspentOutputs selected) (target recipients))
    as [Hshort|Hcovered].
  { left. unfold outcome in *.
    by erewrite getTransactionData_fast_reject. }
  destruct (fetchBtcFeeRate env network) as [tiers|e] eqn:Htiers.
  2: { right. left. unfold outcome in *.
       by erewrite getTransactionData_fee_fetch_fails. }
  right. right.
  destruct (getFee env candidates selected (sumUnspentOutputs selected)
              (target recipients) recipients
              (feeRateOrTiers env feeRateInput tiers) senderAddress network
              ordinalUtxo) as [[new fee0]|e'] eqn:Hfee.
  - destruct (decide (length new = length selected)) as [Hlen|Hlen].
    + unfold outcome in *. by erewrite getTransactionData_same_size.
    + destruct (Z.lt_ge_cases (sumUnspentOutputs new)
                  (target recipients + fee0)).
      * unfold outcome in *. by erewrite getTransactionData_revalidation_fails.
      * unfold outcome in *. by erewrite getTransactionData_reselected.
  - unfold outcome in *. by erewrite getTransactionData_getFee_fails.
Qed.

(** X1.  Whatever the collaborators answer, [getTransactionData] calls
    them in one fixed order and each at most once: the two retrievals,
    then the fee-rate fetch, then the reconciliation; it never fetches a
    raw transaction.  A call that returns has made all four calls. *)
Theorem getTransactionData_call_discipline :
  (snd outcome = gatherTrace network senderAddress
   \/ snd outcome
      = gatherTrace network senderAddress ++ [EvFetchBtcFeeRate network]
   \/ snd outcome = fullTrace network senderAddress)
  /\ NoDup (snd outcome)
  /\ countEvents isTransactionHexFetch (snd outcome) = 0%nat
  /\ (forall r, fst outcome = Ok r ->
                snd outcome = fullTrace network senderAddress).
Proof.
  split; [apply getTransactionData_traces|].
  pose proof (fullTrace_NoDup env network senderAddress recipients
                feeRateInput ordinalUtxo) as Hnd.
  unfold fullTrace in Hnd.
  split; [|split].
  - destruct getTransactionData_traces as [->|[->| ->]].
    + by apply NoDup_app in Hnd as [? _].
    + change [EvFetchBtcFeeRate network; EvGetFee]
        with ([EvFetchBtcFeeRate network] ++ [EvGetFee]) in Hnd.
      rewrite app_assoc in Hnd. by apply NoDup_app in Hnd as [? _].
    + done.
  - by destruct getTransactionData_traces as [->|[->| ->]].
  - intros r Hok.
    destruct (getTransactionData_returns_gathered r Hok)
      as (unspent & marked & Hu & Hm).
    destruct (getTransactionData_ending env network senderAddress recipients
                feeRateInput ordinalUtxo unspent marked Hu Hm)
      as [? Hout|e tr ? Hout|new fee0 ? Hlen Hout|new fee0 ? ? ? Hout
          |new fee0 ? Hlen ? Hout];
      unfold outcome in *; rewrite Hout in Hok |- *; simpl in *;
      done || discriminate.
Qed.

(** X2.  When one of the two retrievals of the gathering step rejects,
    the call rejects with what a failed retrieval threw, both retrievals
    have been started, and nothing else is called: no selection is acted
    upon and no fee rate is fetched. *)
Theorem getTransactionData_gathering_fails :
  (exists e, getUnspentUtxos env senderAddress = Throw e)
  \/ (exists e, getOrdinalsUtxos env network senderAddress = Throw e) ->
  (exists e,
     fst outcome = Throw e
     /\ (getUnspentUtxos env senderAddress = Throw e
         \/ getOrdinalsUtxos env network senderAddress = Throw e))
  /\ snd outcome = gatherTrace network senderAddress.
Proof.
  intros Hfail.
  destruct (getUnspentUtxos env senderAddress) as [unspent|e] eqn:Hu.
  - destruct Hfail as [[e He]|[e He]]; [discriminate|].
    rewrite (getTransactionData_marked_fails unspent e Hu He).
    split; [|done]. exists e. by split; [|right].
  - rewrite (getTransactionData_unspent_fails e Hu).
    split; [|done]. exists e. by split; [|left].
Qed.

End Calls.

(** X2: the unspent outputs cannot be retrieved. *)
Lemma getTransactionData_gathering_fails_witness :
  fst (run (getTransactionData Outage.noUnspent Mainnet Ref.sender
              [mkRecipient Ref.payee 50000] None None))
  = Throw Outage.timeout
  /\ snd (run (getTransactionData Outage.noUnspent Mainnet Ref.sender
                 [mkRecipient Ref.payee 50000] None None))
     = gatherTrace Mainnet Ref.sender.
Proof.
  destruct
    (getTransactionData_gathering_fails Outage.noUnspent Mainnet Ref.sender
       [mkRecipient Ref.payee 50000] None None
       (or_introl (ex_intro _ Outage.timeout eq_refl)))
    as [_ Htrace].
  split; [reflexivity | exact Htrace].
Defined.

Section SecondPhase.

Variable env : Env.
Variables (network : NetworkType) (senderAddress : string).
Variables (recipients : list Recipient) (feeRateInput : option string).
Variable ordinalUtxo : option UTXO.
Variables unspentOutputs addressOrdinalsUtxos : list UTXO.

Hypothesis Hunspent :
  getUnspentUtxos env senderAddress = Ok unspentOutputs.
Hypothesis Hmarked :
  getOrdinalsUtxos env network senderAddress = Ok addressOrdinalsUtxos.

Let candidates := filterUtxos env unspentOutputs addressOrdinalsUtxos.
Let selected := provisional env recipients feeRateInput candidates ordinalUtxo.
Let outcome :=
  run (getTransactionData env network senderAddress recipients feeRateInput
         ordinalUtxo).

(** X3.  Once the provisional selection covers the target, a rejection of
    the fee-rate fetch or of the reconciliation is the rejection of the
    call, with the thrown value unchanged; when the fee-rate fetch
    rejects, the reconciliation is never invoked. *)
Theorem getTransactionData_second_phase_fails (e : Thrown) :
  target recipients <= sumUnspentOutputs selected ->
  (fetchBtcFeeRate env network = Throw e ->
   fst outcome = Throw e
   /\ countEvents isGetFee (snd outcome) = 0%nat)
  /\ (forall tiers,
        fetchBtcFeeRate env network = Ok tiers ->
        getFee env candidates selected (sumUnspentOutputs selected)
          (target recipients) recipients
          (feeRateOrTiers env feeRateInput tiers) senderAddress network
          ordinalUtxo = Throw e ->
        outcome = (Throw e, fullTrace network senderAddress)).
Proof.
  intros Hcov. split.
  - intros Hfetch. unfold outcome.
    by erewrite getTransactionData_fee_fetch_fails.
  - intros tiers Htiers Hfee. unfold outcome.
    by erewrite getTransactionData_getFee_fails.
Qed.

(** X4.  After a successful gathering the fee rate is fetched exactly
    once when the provisional selection covers the target and not at all
    otherwise; the reconciliation is invoked at most once. *)
Theorem getTransactionData_fee_fetch_count :
  countEvents isFeeRateFetch (snd outcome)
  = (if sumUnspentOutputs selected <? target recipients
     then 0%nat else 1%nat)
  /\ (countEvents isGetFee (snd outcome) <= 1)%nat.
Proof.
  destruct (Z.ltb_spec (sumUnspentOutputs selected) (target recipients))
    as [Hshort|Hcov].
  { unfold outcome. erewrite getTransactionData_fast_reject by done.
    split; [reflexivity | unfold countEvents; simpl; lia]. }
  destruct (fetchBtcFeeRate env network) as [tiers|e] eqn:Htiers.
  2: { unfold outcome. erewrite getTransactionData_fee_fetch_fails by done.
       simpl. split; [reflexivity | unfold countEvents; simpl; lia]. }
  assert (snd outcome = fullTrace network senderAddress) as ->.
  { destruct (getFee env candidates selected (sumUnspentOutputs selected)
                (target recipients) recipients
                (feeRateOrTiers env feeRateInput tiers) senderAddress
                network ordinalUtxo) as [[new fee0]|e'] eqn:Hfee.
    - destruct (decide (length new = length selected)) as [Hlen|Hlen].
      + unfold outcome. by erewrite getTransactionData_same_size.
      + destruct (Z.lt_ge_cases (sumUnspentOutputs new)
                    (target recipients + fee0)).
        * unfold outcome.
          by erewrite getTransactionData_revalidation_fails.
        * unfold outcome. by erewrite getTransactionData_reselected.
    - unfold outcome. by erewrite getTransactionData_getFee_fails. }
  split; [reflexivity | unfold countEvents; simpl; lia].
Qed.

(** X6.  When the selection heuristic always includes the pinned input
    and the reconciliation keeps it, the pinned input is part of the
    selection of every successful outcome. *)
Theorem getTransactionData_keeps_pinned_input (pin : UTXO)
    (r : TransactionData) :
  ordinalUtxo = Some pin ->
  (forall amount rate l,
      pin ∈ selectUnspentOutputs env amount rate l (Some pin)) ->
  (forall l sel total amount rs rate addr net new fee0,
      pin ∈ sel ->
      getFee env l sel total amount rs rate addr net (Some pin)
      = Ok (new, fee0) ->
      pin ∈ new) ->
  fst outcome = Ok r ->
  pin ∈ selectedUTXOs r.
Proof.
  intros Hpin Hsel Hfee Hok.
  assert (pin ∈ selected) as Hin.
  { subst selected. unfold provisional. rewrite Hpin. apply Hsel. }
  unfold outcome in Hok.
  destruct (Z.lt_ge_cases (sumUnspentOutputs selected) (target recipients)).
  { erewrite getTransactionData_fast_reject in Hok by done. discriminate. }
  destruct (fetchBtcFeeRate env network) as [tiers|e] eqn:Htiers.
  2: { erewrite getTransactionData_fee_fetch_fails in Hok by done.
       discriminate. }
  destruct (getFee env candidates selected (sumUnspentOutputs selected)
              (target recipients) recipients
              (feeRateOrTiers env feeRateInput tiers) senderAddress network
              ordinalUtxo) as [[new fee0]|e] eqn:Hget.
  2: { erewrite getTransactionData_getFee_fails in Hok by done.
       discriminate. }
  destruct (decide (length new = length selected)) as [Hlen|Hlen].
  { erewrite getTransactionData_same_size in Hok by done.
    by injection Hok as <-. }
  destruct (Z.lt_ge_cases (sumUnspentOutputs new) (target recipients + fee0)).
  { erewrite getTransactionData_revalidation_fails in Hok by done.
    discriminate. }
  erewrite getTransactionData_reselected in Hok by done.
  injection Hok as <-. simpl. rewrite Hpin in Hget. by eapply Hfee.
Qed.

(** X7.  With a non-negative fee, the selection of a successful outcome
    covers what the recipients are to receive: the change added to the
    fee is never negative. *)
Theorem getTransactionData_covers_recipients (r : TransactionData) :
  fst outcome = Ok r ->
  0 <= fee r ->
  target recipients <= sumUnspentOutputs (selectedUTXOs r)
  /\ 0 <= changeValue r + fee r.
Proof.
  intros Hok Hfee.
  destruct (getTransactionData_ending env network senderAddress recipients
              feeRateInput ordinalUtxo unspentOutputs addressOrdinalsUtxos
              Hunspent Hmarked)
    as [? Hout|e tr ? Hout|new fee0 Hcov Hlen Hout|new fee0 ? ? ? Hout
        |new fee0 Hcov Hlen Hpaid Hout];
    unfold outcome in Hok; rewrite Hout in Hok; simpl in Hok;
    try discriminate; injection Hok as <-; simpl in *.
  - subst selected candidates. lia.
  - lia.
Qed.

End SecondPhase.

(** X5.  A fee rate given by the caller does not spare the fee-rate
    fetch, but what the fetch answers is not used: the outcome, calls
    included, is the same for any two fetched fee-rate tiers; and a
    rejection of the fetch still rejects the call. *)
Theorem getTransactionData_caller_fee_rate (env : Env)
    (network : NetworkType) (senderAddress : string)
    (recipients : list Recipient) (rate : string) (ordinalUtxo : option UTXO) :
  rate <> "" ->
  (forall tiers tiers',
     run (getTransactionData (withFetchBtcFeeRate env (fun _ => Ok tiers))
            network senderAddress recipients (Some rate) ordinalUtxo)
     = run (getTransactionData (withFetchBtcFeeRate env (fun _ => Ok tiers'))
              network senderAddress recipients (Some rate) ordinalUtxo))
  /\ (forall e unspent marked,
        getUnspentUtxos env senderAddress = Ok unspent ->
        getOrdinalsUtxos env network senderAddress = Ok marked ->
        target recipients
        <= sumUnspentOutputs
             (provisional env recipients (Some rate)
                (filterUtxos env unspent marked) ordinalUtxo) ->
        run (getTransactionData (withFetchBtcFeeRate env (fun _ => Throw e))
               network senderAddress recipients (Some rate) ordinalUtxo)
        = (Throw e,
           gatherTrace network senderAddress ++ [EvFetchBtcFeeRate network])).
Proof.
  intros Hrate. split.
  - intros tiers tiers'.
    unfold run, getTransactionData, bind, promise_all2, call. simpl.
    destruct (getUnspentUtxos env senderAddress);
      destruct (getOrdinalsUtxos env network senderAddress); try reflexivity.
    destruct rate as [|c rate]; [done|]. simpl.
    by destruct (_ <? _).
  - intros e unspent marked Hu Hm Hcov.
    by apply (getTransactionData_fee_fetch_fails
                (withFetchBtcFeeRate env (fun _ => Throw e)) network
                senderAddress recipients (Some rate) ordinalUtxo unspent
                marked Hu Hm e Hcov).
Qed.

(** X3: the fee-rate service is down. *)
Lemma getTransactionData_second_phase_fails_witness :
  fst (run (getTransactionData Outage.noFeeRate Mainnet Ref.sender
              [mkRecipient Ref.payee 50000] None None))
  = Throw Outage.timeout
  /\ countEvents isGetFee
       (snd (run (getTransactionData Outage.noFeeRate Mainnet Ref.sender
                    [mkRecipient Ref.payee 50000] None None)))
     = 0%nat.
Proof.
  apply (proj1
    (getTransactionData_second_phase_fails Outage.noFeeRate Mainnet
       Ref.sender [mkRecipient Ref.payee 50000] None None
       Scenario.twoCandidates [] eq_refl eq_refl Outage.timeout
       ltac:(vm_compute; discriminate))).
  reflexivity.
Defined.

(** X4: 50000 to send from candidates of 30000 and 40000. *)
Lemma getTransactionData_fee_fetch_count_witness :
  countEvents isFeeRateFetch (snd (run Scenario.covered)) = 1%nat
  /\ (countEvents isGetFee (snd (run Scenario.covered)) <= 1)%nat.
Proof.
  exact (getTransactionData_fee_fetch_count
           (Ref.env Scenario.twoCandidates [] 1500) Mainnet Ref.sender
           [mkRecipient Ref.payee 50000] None None Scenario.twoCandidates []
           eq_refl eq_refl).
Defined.

(** X5: a caller rate of 5 sat/vB. *)
Lemma getTransactionData_caller_fee_rate_witness :
  run (getTransactionData
         (withFetchBtcFeeRate (Ref.env Scenario.twoCandidates [] 1500)
            (fun _ => Ok (mkBtcFeeResponse 1 2 3)))
         Mainnet Ref.sender [mkRecipient Ref.payee 50000] (Some "5") None)
  = run (getTransactionData
           (withFetchBtcFeeRate (Ref.env Scenario.twoCandidates [] 1500)
              (fun _ => Ok (mkBtcFeeResponse 100 200 300)))
           Mainnet Ref.sender [mkRecipient Ref.payee 50000] (Some "5") None).
Proof.
  exact (proj1
    (getTransactionData_caller_fee_rate
       (Ref.env Scenario.twoCandidates [] 1500) Mainnet Ref.sender
       [mkRecipient Ref.payee 50000] "5" None ltac:(discriminate))
    (mkBtcFeeResponse 1 2 3) (mkBtcFeeResponse 100 200 300)).
Defined.

(** The reference collaborators keep the pinned input. *)
Lemma Ref_select_keeps_pin (pin : UTXO) (amount rate : Z) (l : list UTXO) :
  pin ∈ Ref.select amount rate l (Some pin).
Proof. left. Qed.

Lemma Ref_reconcile_keeps_pin (flatFee : Z) (pin : UTXO)
    (l sel : list UTXO) (total amount : Z) (new : list UTXO) (fee0 : Z) :
  pin ∈ sel ->
  Ref.reconcile flatFee l sel total amount (Some pin) = (new, fee0) ->
  pin ∈ new.
Proof.
  unfold Ref.reconcile. intros Hin.
  destruct (total <? amount + flatFee); intros [= <- _]; [left | done].
Qed.

(** X6: the pinned output of the funding address. *)
Lemma getTransactionData_keeps_pinned_input_witness :
  exists r,
    fst (run Scenario.pinnedOwn) = Ok r
    /\ Scenario.ownInscription ∈ selectedUTXOs r.
Proof.
  eexists. split; [reflexivity|].
  apply (getTransactionData_keeps_pinned_input
           (Ref.env [Ref.utxo Ref.tx1 0 30000; Scenario.ownInscription]
              [Scenario.ownInscription] 1000)
           Mainnet Ref.sender [mkRecipient Ref.payee 10000] (Some "5")
           (Some Scenario.ownInscription)
           [Ref.utxo Ref.tx1 0 30000; Scenario.ownInscription]
           [Scenario.ownInscription] eq_refl eq_refl
           Scenario.ownInscription _ eq_refl).
  - intros amount rate l. apply Ref_select_keeps_pin.
  - intros l sel total amount rs rate addr net new fee0 Hin [= Heq].
    by eapply Ref_reconcile_keeps_pin.
  - reflexivity.
Defined.

(** X7: the covered scenario, inputs of 70000 for 50000 to send. *)
Lemma getTransactionData_covers_recipients_witness :
  exists r,
    fst (run Scenario.covered) = Ok r
    /\ target [mkRecipient Ref.payee 50000]
       <= sumUnspentOutputs (selectedUTXOs r)
    /\ 0 <= changeValue r + fee r.
Proof.
  eexists. split; [reflexivity|].
  apply (getTransactionData_covers_recipients
           (Ref.env Scenario.twoCandidates [] 1500) Mainnet Ref.sender
           [mkRecipient Ref.payee 50000] None None Scenario.twoCandidates []
           eq_refl eq_refl _ eq_refl).
  vm_compute. discriminate.
Defined.

(* ===================================================================== *)
(** * Further properties of the assemblers *)
(* ===================================================================== *)

(** A failed fetch rejects the join, whatever the other fetches answer. *)
Lemma promise_all_fetch_fails (env : Env) (l : list UTXO) (tr : list Event) :
  Exists (fun u => exists e, getTransactionHex env (txid u) = Throw e) l ->
  exists e u,
    u ∈ l /\ getTransactionHex env (txid u) = Throw e
    /\ fst (promise_all (map (fetchParent env) l) tr) = Throw e.
Proof.
  intros Hex. revert tr.
  induction Hex as [u l [e He]|u l _ IH]; intros tr; simpl.
  - exists e, u. split; [left|]. split; [done|].
    rewrite fetchParent_run, He. by destruct (promise_all _ _).
  - rewrite fetchParent_run.
    destruct (IH (tr ++ [EvGetTransactionHex (txid u)]))
      as (e & v & Hin & Hv & Hfst).
    destruct (promise_all _ _) as [rs tr2]. simpl in Hfst. subst rs.
    destruct (getTransactionHex env (txid u)) as [h|e'] eqn:Hu.
    + exists e, v. split; [by right|]. by split.
    + exists e', u. split; [left|]. by split.
Qed.

Lemma fetchTransactionMap_fails (env : Env) (l : list UTXO) :
  Exists (fun u => exists e, getTransactionHex env (txid u) = Throw e) l ->
  exists e u,
    u ∈ l /\ getTransactionHex env (txid u) = Throw e
    /\ fetchTransactionMap env l [] = (Throw e, fetchTrace l).
Proof.
  intros Hex.
  destruct (promise_all_fetch_fails env l [] Hex) as (e & u & Hin & Hu & Hf).
  exists e, u. split; [done|]. split; [done|].
  pose proof (promise_all_fetch_trace env l []) as Htr.
  unfold fetchTransactionMap, bind, ret.
  destruct (promise_all _ _) as [r tr']. simpl in *. by subst.
Qed.

(** Values of the inputs built from a selection. *)
Lemma inputTotal_map {B T : Type} (net : BtcNetwork)
    (input : UTXO -> PsbtInput B T) (l : list UTXO) (os : list PsbtOutput) :
  (forall u, wu_value (witnessUtxo (input u)) = value u) ->
  inputTotal (mkPsbt net (map input l) os) = sumUnspentOutputs l.
Proof.
  intros Hv. unfold inputTotal. simpl.
  induction l as [|u l IH]; simpl; [done|].
  by rewrite IH, Hv, sumUnspentOutputs_cons.
Qed.

Lemma target_cons (r : Recipient) (rs : list Recipient) :
  target (r :: rs) = amountSats r + target rs.
Proof. unfold target. simpl. apply fold_left_add_shift. Qed.

(** Value of the outputs every assembler emits, for amounts in the exact
    range of [toNumber]. *)
Lemma emitted_total (recipients : list Recipient) (changeAddress : string)
    (changeValue : Z) :
  Forall (fun r => Z.abs (amountSats r) <= 2 ^ 53) recipients ->
  changeValue <= 2 ^ 53 ->
  fold_right
    (fun o acc =>
       match exactValue (o_value o), acc with
       | Some v, Some a => Some (v + a)
       | _, _ => None
       end)
    (Some 0)
    (recipientOutputs recipients ++ changeOutputs changeAddress changeValue)
  = Some (target recipients + Z.max 0 changeValue).
Proof.
  intros Hrs Hcv. induction Hrs as [|r rs Hr _ IH]; simpl.
  - unfold changeOutputs, target. simpl.
    destruct (Z.ltb_spec 0 changeValue); simpl.
    + rewrite toNumber_exact by lia. simpl. f_equal. lia.
    + f_equal. lia.
  - rewrite IH, toNumber_exact by done. simpl.
    rewrite target_cons. f_equal. lia.
Qed.

Section AssemblerExtras.

Context {Bip32Derivation TapBip32Derivation : Type}.

Variable lib : PsbtLib Bip32Derivation TapBip32Derivation.
Variables (env : Env) (network : NetworkType).
Variables (recipients : list Recipient) (changeAddress : string).
Variables (changeValue : Z) (inputUTXOs : list UTXO).
Variable inputDerivation : option (list Bip32Derivation).
Variable witnessScript : Buffer.t.
Variable taprootInputDerivation : option (list TapBip32Derivation).
Variables taprootScript internalKey : Buffer.t.

Let segwit : M (Psbt Bip32Derivation TapBip32Derivation) :=
  createNativeSegwitPsbt lib env network recipients changeAddress changeValue
    inputUTXOs inputDerivation witnessScript.

Let taproot : M (Psbt Bip32Derivation TapBip32Derivation) :=
  createTaprootPsbt lib network recipients changeAddress changeValue
    inputUTXOs taprootInputDerivation taprootScript internalKey.

Let mixed : M (Psbt Bip32Derivation TapBip32Derivation) :=
  createMixedPsbt lib env network recipients changeAddress changeValue
    inputUTXOs inputDerivation witnessScript taprootInputDerivation
    taprootScript internalKey.

(** X8.  A container the segwit assembler returns is on the bitcoin
    network for [Mainnet] and on the testnet otherwise, and holds the
    input of every selected output built the segwit way, in the order of
    the selection, with the shared script and derivation and the bytes of
    the output's own parent transaction; a container the taproot
    assembler returns is on the same network and holds every input built
    the taproot way, without parent bytes.  The taproot assembler calls no
    collaborator. *)
Theorem single_scheme_construction :
  (forall psbt,
     fst (run segwit) = Ok psbt ->
     psbt_network psbt
     = match network with Mainnet => bitcoin | Testnet => testnet end
     /\ Forall2 (segwitStyle env inputDerivation witnessScript)
          inputUTXOs (inputs psbt))
  /\ (forall psbt,
        fst (run taproot) = Ok psbt ->
        psbt_network psbt
        = match network with Mainnet => bitcoin | Testnet => testnet end
        /\ Forall2 (taprootStyle taprootInputDerivation taprootScript
                      internalKey)
             inputUTXOs (inputs psbt))
  /\ snd (run taproot) = [].
Proof.
  subst segwit taproot. split; [|split; [|done]].
  - intros psbt Hok.
    pose proof (createNativeSegwitPsbt_inv _ _ _ _ _ _ _ _ _ _ Hok) as Hall.
    rewrite createNativeSegwitPsbt_run in Hok by done.
    apply build_ok in Hok as [-> _]. simpl.
    split; [by destruct network|].
    apply Forall2_map_r. intros u Hu.
    unfold segwitStyle, segwitInput. simpl.
    by rewrite (storeAll_lookup (parentBytes env)).
  - intros psbt Hok. rewrite createTaprootPsbt_run in Hok.
    apply build_ok in Hok as [-> _]. simpl.
    split; [by destruct network|].
    apply Forall2_map_r. intros u _.
    by unfold taprootStyle, taprootInput.
Qed.

(** X9.  When every selected output is owned by the change address, the
    mixed assembler does exactly what the segwit assembler does: the same
    calls and the same result. *)
Theorem createMixedPsbt_all_change_address :
  Forall (fun u => address u = changeAddress) inputUTXOs ->
  run mixed = run segwit.
Proof.
  intros Hall. subst mixed segwit.
  unfold run, createMixedPsbt, createNativeSegwitPsbt, bind, lift.
  destruct (fetchTransactionMap env inputUTXOs []) as [[m|e] tr]; [|done].
  do 2 f_equal. apply forOf_ext. intros psbt u Hu.
  rewrite List.Forall_forall in Hall.
  apply list_elem_of_In, Hall, String.eqb_eq in Hu. by rewrite Hu.
Qed.

(** X10.  When no selected output is owned by the change address, the
    mixed assembler returns the container the taproot assembler returns,
    yet it still fetches the parent transaction of every input, and it
    returns only when all these fetches succeed. *)
Theorem createMixedPsbt_no_change_address :
  Forall (fun u => address u <> changeAddress) inputUTXOs ->
  snd (run mixed) = fetchTrace inputUTXOs
  /\ (allFetched env inputUTXOs -> fst (run mixed) = fst (run taproot))
  /\ (forall psbt, fst (run mixed) = Ok psbt -> allFetched env inputUTXOs).
Proof.
  intros Hnone. split; [apply createMixedPsbt_trace|]. split.
  - intros Hall. subst mixed taproot.
    rewrite createMixedPsbt_run, createTaprootPsbt_run by done. simpl.
    apply build_ext. intros u Hu.
    rewrite List.Forall_forall in Hnone.
    apply list_elem_of_In, Hnone, String.eqb_neq in Hu. by rewrite Hu.
  - subst mixed. apply createMixedPsbt_inv.
Qed.

(** X11.  When the parent transaction of some selected output cannot be
    fetched, the segwit and the mixed assembler reject with what a failed
    fetch threw and return no container; every fetch has been started
    all the same. *)
Theorem assemblers_fetch_fails :
  Exists (fun u => exists e, getTransactionHex env (txid u) = Throw e)
    inputUTXOs ->
  (exists e u,
     u ∈ inputUTXOs /\ getTransactionHex env (txid u) = Throw e
     /\ run segwit = (Throw e, fetchTrace inputUTXOs))
  /\ (exists e u,
        u ∈ inputUTXOs /\ getTransactionHex env (txid u) = Throw e
        /\ run mixed = (Throw e, fetchTrace inputUTXOs)).
Proof.
  intros Hex.
  destruct (fetchTransactionMap_fails env inputUTXOs Hex)
    as (e & u & Hin & Hu & Hrun).
  subst segwit mixed.
  split; exists e, u; (split; [done|]); (split; [done|]);
    unfold run, createNativeSegwitPsbt, createMixedPsbt, bind;
    by rewrite Hrun.
Qed.

(** X12.  For amounts in the exact range of [toNumber], a container
    returned by any of the three assemblers spends the total value of the
    selection and pays the recipients' total plus the change when the
    change is positive. *)
Theorem assembled_totals (psbt : Psbt Bip32Derivation TapBip32Derivation) :
  Forall (fun r => Z.abs (amountSats r) <= 2 ^ 53) recipients ->
  changeValue <= 2 ^ 53 ->
  fst (run segwit) = Ok psbt \/ fst (run taproot) = Ok psbt
  \/ fst (run mixed) = Ok psbt ->
  inputTotal psbt = sumUnspentOutputs inputUTXOs
  /\ outputTotal psbt = Some (target recipients + Z.max 0 changeValue).
Proof.
  intros Hrs Hcv Hret. split.
  - destruct (returned_inputs lib env network recipients changeAddress
                changeValue inputUTXOs inputDerivation witnessScript
                taprootInputDerivation taprootScript internalKey psbt Hret)
      as (input & Hin & Hinput).
    destruct psbt as [net ins outs]. simpl in Hin. subst ins.
    apply inputTotal_map. intros u.
    by destruct (Hinput u) as [[m ->]| ->].
  - unfold outputTotal.
    rewrite (returned_outputs lib env network recipients changeAddress
               changeValue inputUTXOs inputDerivation witnessScript
               taprootInputDerivation taprootScript internalKey psbt Hret).
    by apply emitted_total.
Qed.

End AssemblerExtras.

(* ===================================================================== *)
(** * From the selection to the container *)
(* ===================================================================== *)

(** What a returned selection, change and fee add up to. *)
Lemma getTransactionData_balance (env : Env) (network : NetworkType)
    (senderAddress : string) (recipients : list Recipient)
    (feeRateInput : option string) (ordinalUtxo : option UTXO)
    (r : TransactionData) :
  fst (run (getTransactionData env network senderAddress recipients
              feeRateInput ordinalUtxo)) = Ok r ->
  changeValue r
  = sumUnspentOutputs (selectedUTXOs r) - target recipients - fee r
  /\ (0 <= fee r -> target recipients <= sumUnspentOutputs (selectedUTXOs r)).
Proof.
  intros Hok.
  destruct (getTransactionData_returns_gathered _ _ _ _ _ _ r Hok)
    as (unspent & marked & Hu & Hm).
  destruct (getTransactionData_ending env network senderAddress recipients
              feeRateInput ordinalUtxo unspent marked Hu Hm)
    as [? Hout|e tr ? Hout|new fee0 Hcov Hlen Hout|new fee0 ? ? ? Hout
        |new fee0 Hcov Hlen Hpaid Hout];
    rewrite Hout in Hok; simpl in Hok; try discriminate;
    injection Hok as <-; simpl; split; lia.
Qed.

Section Prepared.

Context {Bip32Derivation TapBip32Derivation : Type}.

Variable lib : PsbtLib Bip32Derivation TapBip32Derivation.
Variables (env : Env) (network : NetworkType) (senderAddress : string).
Variables (recipients : list Recipient) (feeRateInput : option string).
Variable ordinalUtxo : option UTXO.
Variable changeAddress : string.
Variable inputDerivation : option (list Bip32Derivation).
Variable witnessScript : Buffer.t.
Variable taprootInputDerivation : option (list TapBip32Derivation).
Variables taprootScript internalKey : Buffer.t.

(** X13.  A container assembled from a successful outcome of
    [getTransactionData] with a non-negative fee (amounts in the exact
    range of [toNumber]) never pays out more than its inputs are worth.
    What it leaves to the miners is the computed fee when the change is
    not negative, and the computed fee lowered by the missing change when
    the change is negative. *)
Theorem prepared_transaction_fee (r : TransactionData)
    (psbt : Psbt Bip32Derivation TapBip32Derivation) :
  fst (run (getTransactionData env network senderAddress recipients
              feeRateInput ordinalUtxo)) = Ok r ->
  0 <= fee r ->
  Forall (fun rc => Z.abs (amountSats rc) <= 2 ^ 53) recipients ->
  changeValue r <= 2 ^ 53 ->
  fst (run (createNativeSegwitPsbt lib env network recipients changeAddress
              (changeValue r) (selectedUTXOs r) inputDerivation
              witnessScript)) = Ok psbt
  \/ fst (run (createTaprootPsbt lib network recipients changeAddress
                 (changeValue r) (selectedUTXOs r) taprootInputDerivation
                 taprootScript internalKey)) = Ok psbt
  \/ fst (run (createMixedPsbt lib env network recipients changeAddress
                 (changeValue r) (selectedUTXOs r) inputDerivation
                 witnessScript taprootInputDerivation taprootScript
                 internalKey)) = Ok psbt ->
  exists paid,
    outputTotal psbt = Some paid
    /\ paid <= inputTotal psbt
    /\ inputTotal psbt - paid = Z.min (fee r) (fee r + changeValue r).
Proof.
  intros Hok Hfee Hrs Hcv Hret.
  destruct (getTransactionData_balance _ _ _ _ _ _ r Hok) as [Hchange Hcov].
  specialize (Hcov Hfee).
  assert (inputTotal psbt = sumUnspentOutputs (selectedUTXOs r)) as Hin.
  { destruct (returned_inputs _ _ _ _ _ _ _ _ _ _ _ _ psbt Hret)
      as (input & Hmap & Hinput).
    destruct psbt as [net ins outs]. simpl in Hmap. subst ins.
    apply inputTotal_map. intros u.
    by destruct (Hinput u) as [[m ->]| ->]. }
  exists (target recipients + Z.max 0 (changeValue r)). split.
  - unfold outputTotal.
    rewrite (returned_outputs _ _ _ _ _ _ _ _ _ _ _ _ psbt Hret).
    by apply emitted_total.
  - rewrite Hin. lia.
Qed.

End Prepared.

(* ===================================================================== *)
(** * Further properties of the signature patcher *)
(* ===================================================================== *)

Lemma toString_hex_length (b : Buffer.t) :
  String.length (Buffer.toString_hex b) = (2 * length b)%nat.
Proof.
  induction b as [|x b IH]; simpl; [done|]. rewrite IH. lia.
Qed.

(** X15.  The text handed to the signature encoder has two hexadecimal
    digits per byte of the raw signature and decodes back to it, so that
    different raw signatures are never handed over as the same text; a
    signature of 65 bytes gives the 130 digits of a recoverable
    signature. *)
Theorem signature_hex_is_faithful (signatureVRS other : Buffer.t) :
  String.length (Buffer.toString_hex signatureVRS)
  = (2 * length signatureVRS)%nat
  /\ Buffer.from_hex (Buffer.toString_hex signatureVRS) = signatureVRS
  /\ (Buffer.toString_hex signatureVRS = Buffer.toString_hex other ->
      signatureVRS = other).
Proof.
  split; [apply toString_hex_length|].
  split; [apply from_hex_toString_hex|].
  intros Heq. rewrite <- (from_hex_toString_hex signatureVRS), Heq.
  apply from_hex_toString_hex.
Qed.

Section StacksExtras.

Context {lib : StacksLib}.
Variable fns : StacksFunctions lib.

(** X14.  [addSignatureToStxTransaction] returns exactly when the
    transaction deserializes and the encoder accepts the signature; a
    transaction that does not deserialize rejects the call with the
    deserializer's error whatever the signature is, and the encoder is
    then not what fails. *)
Theorem addSignatureToStxTransaction_outcomes
    (transaction : string + Buffer.t) (signatureVRS : Buffer.t) :
  ((exists tx', addSignatureToStxTransaction fns transaction signatureVRS
                = Ok tx')
   <-> (exists tx encoded,
          deserializeTransaction fns transaction = Ok tx
          /\ createMessageSignature fns (Buffer.toString_hex signatureVRS)
             = Ok encoded))
  /\ (forall e,
        deserializeTransaction fns transaction = Throw e ->
        addSignatureToStxTransaction fns transaction signatureVRS = Throw e)
  /\ (forall tx e,
        deserializeTransaction fns transaction = Ok tx ->
        createMessageSignature fns (Buffer.toString_hex signatureVRS)
        = Throw e ->
        addSignatureToStxTransaction fns transaction signatureVRS = Throw e).
Proof.
  unfold addSignatureToStxTransaction. split; [split|split].
  - intros [tx' Hok].
    destruct (deserializeTransaction fns transaction) as [tx|e];
      [|discriminate].
    destruct (createMessageSignature fns _) as [encoded|e]; [|discriminate].
    by exists tx, encoded.
  - intros (tx & encoded & -> & ->). by eexists.
  - by intros e ->.
  - by intros tx e -> ->.
Qed.

End StacksExtras.

(** X8: the segwit scenario, on the main network. *)
Lemma single_scheme_construction_witness :
  exists psbt,
    fst (run Scenario.segwitRun) = Ok psbt
    /\ psbt_network psbt = bitcoin
    /\ Forall2 (segwitStyle (Ref.env [] [] 0) Scenario.segwitDerivation
                  Scenario.witnessScript)
         Scenario.siblings (inputs psbt).
Proof.
  eexists. split; [reflexivity|].
  exact
    (proj1
       (single_scheme_construction Ref.psbtLib (Ref.env [] [] 0) Mainnet
          [mkRecipient Ref.payee 50000] Ref.sender 18500 Scenario.siblings
          Scenario.segwitDerivation Scenario.witnessScript
          Scenario.taprootDerivation Scenario.taprootScript
          Scenario.internalKey)
       _ eq_refl).
Defined.

Example taprootRun_inputs :
  exists psbt,
    run Scenario.taprootRun = (Ok psbt, [])
    /\ psbt_network psbt = bitcoin
    /\ map nonWitnessUtxo (inputs psbt) = [None]
    /\ map tapInternalKey (inputs psbt) = [Some Scenario.internalKey].
Proof. eexists. repeat split; reflexivity. Qed.

(** X9: two outputs of the change address. *)
Lemma createMixedPsbt_all_change_address_witness :
  run (createMixedPsbt Ref.psbtLib (Ref.env [] [] 0) Mainnet
         [mkRecipient Ref.payee 50000] Ref.sender 18500 Scenario.siblings
         Scenario.segwitDerivation Scenario.witnessScript
         Scenario.taprootDerivation Scenario.taprootScript
         Scenario.internalKey)
  = run Scenario.segwitRun.
Proof.
  apply (createMixedPsbt_all_change_address Ref.psbtLib (Ref.env [] [] 0)
           Mainnet [mkRecipient Ref.payee 50000] Ref.sender 18500
           Scenario.siblings Scenario.segwitDerivation
           Scenario.witnessScript Scenario.taprootDerivation
           Scenario.taprootScript Scenario.internalKey).
  repeat constructor.
Defined.

(** X10: one taproot output, the change going to another address: the
    parent transaction is fetched although no input carries its bytes. *)
Lemma createMixedPsbt_no_change_address_witness :
  snd (run (createMixedPsbt Ref.psbtLib (Ref.env [] [] 0) Mainnet
              [mkRecipient Ref.payee 9000] Ref.sender 0 [Ref.inscription]
              Scenario.segwitDerivation Scenario.witnessScript
              Scenario.taprootDerivation Scenario.taprootScript
              Scenario.internalKey))
  = [EvGetTransactionHex Ref.tx3].
Proof.
  apply (createMixedPsbt_no_change_address Ref.psbtLib (Ref.env [] [] 0)
           Mainnet [mkRecipient Ref.payee 9000] Ref.sender 0
           [Ref.inscription] Scenario.segwitDerivation
           Scenario.witnessScript Scenario.taprootDerivation
           Scenario.taprootScript Scenario.internalKey).
  repeat constructor. discriminate.
Defined.

(** X11: the parent of the second of three inputs cannot be fetched. *)
Lemma assemblers_fetch_fails_witness :
  exists e u,
    u ∈ Scenario.mixedSelection
    /\ getTransactionHex Outage.noParent (txid u) = Throw e
    /\ run (createNativeSegwitPsbt Ref.psbtLib Outage.noParent Mainnet
              [mkRecipient Ref.payee 50000] Ref.sender 18500
              Scenario.mixedSelection Scenario.segwitDerivation
              Scenario.witnessScript)
        = (Throw e, fetchTrace Scenario.mixedSelection).
Proof.
  assert (Exists
            (fun u => exists e,
                 getTransactionHex Outage.noParent (txid u) = Throw e)
            Scenario.mixedSelection) as Hfail.
  { unfold Scenario.mixedSelection. apply Exists_cons_tl, Exists_cons_hd.
    exists Outage.timeout. reflexivity. }
  exact
    (proj1
       (assemblers_fetch_fails Ref.psbtLib Outage.noParent Mainnet
          [mkRecipient Ref.payee 50000] Ref.sender 18500
          Scenario.mixedSelection Scenario.segwitDerivation
          Scenario.witnessScript Scenario.taprootDerivation
          Scenario.taprootScript Scenario.internalKey Hfail)).
Defined.

Example noParent_rejects :
  run (createNativeSegwitPsbt Ref.psbtLib Outage.noParent Mainnet
         [mkRecipient Ref.payee 50000] Ref.sender 18500
         Scenario.mixedSelection Scenario.segwitDerivation
         Scenario.witnessScript)
  = (Throw Outage.timeout,
     [EvGetTransactionHex Ref.tx1; EvGetTransactionHex Ref.tx3;
      EvGetTransactionHex Ref.tx1]).
Proof. reflexivity. Qed.

(** X12: the mixed scenario spends 80000 and pays 78500. *)
Lemma assembled_totals_witness :
  exists psbt,
    fst (run Scenario.mixedRun) = Ok psbt
    /\ inputTotal psbt = 80000
    /\ outputTotal psbt = Some 78500.
Proof.
  eexists. split; [reflexivity|].
  apply (assembled_totals Ref.psbtLib (Ref.env [] [] 0) Mainnet
           Scenario.mixedRecipients Ref.sender 18500
           Scenario.mixedSelection Scenario.segwitDerivation
           Scenario.witnessScript Scenario.taprootDerivation
           Scenario.taprootScript Scenario.internalKey).
  - repeat constructor; vm_compute; discriminate.
  - vm_compute. discriminate.
  - right. right. reflexivity.
Defined.

(** X13: 50000 to send from 70000 at a fee of 1500: 68500 are paid out
    and 1500 are left to the miners. *)
Lemma prepared_transaction_fee_witness :
  exists r psbt paid,
    fst (run Scenario.covered) = Ok r
    /\ fst (run (createNativeSegwitPsbt Ref.psbtLib
                   (Ref.env Scenario.twoCandidates [] 1500) Mainnet
                   [mkRecipient Ref.payee 50000] Ref.sender (changeValue r)
                   (selectedUTXOs r) Scenario.segwitDerivation
                   Scenario.witnessScript)) = Ok psbt
    /\ outputTotal psbt = Some paid
    /\ paid <= inputTotal psbt
    /\ inputTotal psbt - paid = 1500.
Proof.
  eexists. eexists. exists 68500.
  split; [reflexivity|]. split; [reflexivity|].
  destruct
    (prepared_transaction_fee Ref.psbtLib
       (Ref.env Scenario.twoCandidates [] 1500) Mainnet Ref.sender
       [mkRecipient Ref.payee 50000] None None Ref.sender
       Scenario.segwitDerivation Scenario.witnessScript
       Scenario.taprootDerivation Scenario.taprootScript
       Scenario.internalKey _ _ eq_refl
       ltac:(vm_compute; discriminate)
       ltac:(repeat constructor; vm_compute; discriminate)
       ltac:(vm_compute; discriminate)
       (or_introl eq_refl))
    as (paid & Hpaid & Hle & Hfee).
  vm_compute in Hpaid. injection Hpaid as <-.
  split; [reflexivity|]. split; [exact Hle | exact Hfee].
Defined.

(** X14: a signature of one byte is refused by the encoder. *)
Example addSignatureToStxTransaction_short_signature :
  addSignatureToStxTransaction Ref.stacksFunctions (inl "80800000")
    [Byte.x01]
  = Throw (ThrownOther "Invalid signature").
Proof. reflexivity. Qed.
